(** * LifeFlow rule engine: condition evaluator, action executor, dispatch

    A shallow embedding of the automation core of LifeFlow
    ([modules/rules/conditionEvaluator.ts], [modules/rules/actionExecutor.ts],
    [modules/rules/ruleEngine.ts], [modules/rules/types.ts]) and of the
    store that drives it ([modules/rules/store/rulesStore.ts]), and the
    properties its specification and its code state about it.

    Modelling conventions.
    - A JavaScript value of static type [unknown] is a [JS.value]: the
      primitives, arrays, plain objects and functions.  Arrays, objects and
      functions carry the identity of their allocation ([JS.ref]), because
      [===] and [Array.prototype.includes] compare them by identity.
    - A [number] is an IEEE 754 binary64 float, as in JavaScript.  A string
      is a sequence of characters; [includes] and [split] work on it
      character by character.
    - Payloads are plain data.  Property access on an object reads its own
      properties; on an array its indices and [length].  Getters, proxies and
      the members inherited from [Object.prototype] and [Array.prototype]
      are outside the model.
    - [console.log], [console.warn] and [console.error] append a line to the
      trace and never throw; [String(error)] always yields a string.
    - An [async] function is a computation in the monad [M]: it threads the
      world (the chronological trace of calls made to the outside, and the
      allocation counter) and either returns or throws.  [await] is
      sequencing; a rejected promise is a thrown value.
    - The outside (Notification API, the dynamically imported timer store)
      is an [Env]: what each call answers, given the world it is made in. *)

From Stdlib Require Import String Ascii List Bool Arith Lia ZArith.
From Stdlib Require Import Floats.PrimFloat Numbers.Cyclic.Int63.Uint63.
From Stdlib Require Import Floats.SpecFloat Floats.FloatOps Floats.FloatAxioms.
From Stdlib Require Import DecimalString.
Import ListNotations.
Local Open Scope string_scope.
Local Open Scope list_scope.

(** ** JavaScript values *)

Module JS.

Definition ref := nat.
Definition number := float.

#[local] Set Warnings "-register-all".

Inductive value : Type :=
| VUndefined
| VNull
| VBool (b : bool)
| VNum (x : number)
| VStr (s : string)
| VArr (id : ref) (items : list value)
| VObj (id : ref) (fields : list (string * value))
| VFun (id : ref).

(** The own properties of an object literal typed [Record<string, unknown>]. *)
Definition record := list (string * value).

(** [typeof v] *)
Definition typeof (v : value) : string :=
  match v with
  | VUndefined => "undefined"
  | VNull => "object"
  | VBool _ => "boolean"
  | VNum _ => "number"
  | VStr _ => "string"
  | VArr _ _ => "object"
  | VObj _ _ => "object"
  | VFun _ => "function"
  end.

Definition isNaN (x : number) : bool := negb (PrimFloat.eqb x x).

(** [a === b]: primitives by value (IEEE equality on numbers, so [NaN] is
    not equal to itself and the two zeros are equal), everything else by
    identity. *)
Definition strictEquals (a b : value) : bool :=
  match a, b with
  | VUndefined, VUndefined => true
  | VNull, VNull => true
  | VBool x, VBool y => Bool.eqb x y
  | VNum x, VNum y => PrimFloat.eqb x y
  | VStr x, VStr y => String.eqb x y
  | VArr i _, VArr j _ => Nat.eqb i j
  | VObj i _, VObj j _ => Nat.eqb i j
  | VFun i, VFun j => Nat.eqb i j
  | _, _ => false
  end.

(** SameValueZero, the comparison of [Array.prototype.includes]: as [===]
    except that [NaN] equals [NaN]. *)
Definition sameValueZero (a b : value) : bool :=
  match a, b with
  | VNum x, VNum y => PrimFloat.eqb x y || (isNaN x && isNaN y)
  | _, _ => strictEquals a b
  end.

(** ToBoolean *)
Definition truthy (v : value) : bool :=
  match v with
  | VUndefined | VNull => false
  | VBool b => b
  | VNum x => negb (PrimFloat.eqb x 0%float || isNaN x)
  | VStr s => negb (String.eqb s "")
  | VArr _ _ | VObj _ _ | VFun _ => true
  end.

(** [a || b] *)
Definition or_else (a b : value) : value := if truthy a then a else b.

(** [r[key]] on the own properties of a record. *)
Fixpoint prop (r : record) (key : string) : value :=
  match r with
  | [] => VUndefined
  | (k, v) :: rest => if String.eqb k key then v else prop rest key
  end.

Definition string_of_nat (n : nat) : string :=
  NilEmpty.string_of_uint (Nat.to_uint n).

Definition number_of_nat (n : nat) : number :=
  PrimFloat.of_uint63 (Uint63.of_Z (Z.of_nat n)).

(** [items[key]] for the index keys ["i"], ["i+1"], ... of an array. *)
Fixpoint index_from (i : nat) (items : list value) (key : string) : value :=
  match items with
  | [] => VUndefined
  | x :: rest =>
      if String.eqb key (string_of_nat i) then x else index_from (S i) rest key
  end.

(** [(o as Record<string, unknown>)[key]] for [o] of type ['object']. *)
Definition get (o : value) (key : string) : value :=
  match o with
  | VObj _ fields => prop fields key
  | VArr _ items =>
      if String.eqb key "length" then VNum (number_of_nat (length items))
      else index_from 0 items key
  | _ => VUndefined
  end.

(** [s.includes(pat)] on strings. *)
Fixpoint includes (s pat : string) : bool :=
  String.prefix pat s ||
  match s with
  | EmptyString => false
  | String _ s' => includes s' pat
  end.

(** [items.includes(x)] on arrays. *)
Definition array_includes (items : list value) (x : value) : bool :=
  existsb (fun y => sameValueZero y x) items.

(** [s.split('.')]: the segments between the dots; never empty. *)
Fixpoint split_dot (s : string) : list string :=
  match s with
  | EmptyString => [""]
  | String c s' =>
      if Ascii.eqb c "."%char then "" :: split_dot s'
      else match split_dot s' with
           | [] => [String c ""]
           | seg :: segs => String c seg :: segs
           end
  end.

End JS.
Import JS.

(** ** The rule data model ([db/types.ts], [modules/rules/types.ts]) *)

Record RuleCondition := {
  field : string;
  operator : string;
  value_ : value;
}.

Record RuleActionConfig := {
  type_ : string;
  params : record;
}.

Record Rule := {
  id : string;
  name : string;
  trigger : string;
  conditions : list RuleCondition;
  actions : list RuleActionConfig;
  enabled : bool;
}.

Record RuleContext := {
  self : ref;
  payload : value;
  getActivityById : value;
  getHabitById : value;
  getCurrentTime : value;
  getTodayKey : value;
}.

Record EvaluatedRule := {
  ruleId : string;
  ruleName : string;
  er_trigger : string;
  matched : bool;
  actionsExecuted : bool;
  er_error : option string;
}.

Record ActionResult := {
  actionType : string;
  success : bool;
  error : option string;
  data : option record;
}.

(** The context object as the evaluator's path walk sees it. *)
Definition context_object (context : RuleContext) : value :=
  VObj (self context)
    [("payload", payload context);
     ("getActivityById", getActivityById context);
     ("getHabitById", getHabitById context);
     ("getCurrentTime", getCurrentTime context);
     ("getTodayKey", getTodayKey context)].

(** ** The world and the monad of asynchronous computations *)

(** A thrown value, as far as this code observes it: through [String(error)]. *)
Inductive thrown := Thrown (rendering : string).

Definition String_ (error : thrown) : string :=
  match error with Thrown s => s end.

Inductive outcome (A : Type) : Type :=
| Ok (a : A)
| Throw (e : thrown).
Arguments Ok {A} a.
Arguments Throw {A} e.

(** Calls made to the outside, in the order they were made.  Each console
    line is an event of its own, named after the call site. *)
Inductive event :=
| WarnUnknownOperator (operator : string)
| LogMessage (message : value) (payload : value)
| LogTriggeringBreak (duration isLongBreak : value)
| WarnActionFailed (result : ActionResult)
| LogRuleExecuted (ruleName trigger : string) (actionsExecuted : bool)
| ErrorRuleEvaluation (error : thrown)
| RequestPermission
| NewNotification (title body : value)
| ImportTimerStore
| StartTimer (activityId : value) (mode : string).

Record World := {
  trace : list event;
  next_ref : ref;
}.

Definition M (A : Type) : Type := World -> outcome A * World.

Definition ret {A} (a : A) : M A := fun w => (Ok a, w).

Definition bind {A B} (m : M A) (k : A -> M B) : M B :=
  fun w =>
    match m w with
    | (Ok a, w') => k a w'
    | (Throw e, w') => (Throw e, w')
    end.

Definition throw {A} (e : thrown) : M A := fun w => (Throw e, w).

(** [try { body } catch (error) { handler }] *)
Definition try_catch {A} (body : M A) (handler : thrown -> M A) : M A :=
  fun w =>
    match body w with
    | (Ok a, w') => (Ok a, w')
    | (Throw e, w') => handler e w'
    end.

Definition emit (e : event) : M unit :=
  fun w => (Ok tt, {| trace := trace w ++ [e]; next_ref := next_ref w |}).

(** A fresh identity for a newly created object or closure. *)
Definition fresh : M ref :=
  fun w => (Ok (next_ref w), {| trace := trace w; next_ref := S (next_ref w) |}).

Declare Scope js_scope.
Delimit Scope js_scope with js.
Notation "x <- m ;; k" := (bind m (fun x => k))
  (at level 100, m at next level, right associativity) : js_scope.
Notation "m ;; k" := (bind m (fun _ => k))
  (at level 100, right associativity) : js_scope.
Local Open Scope js_scope.

(** ** conditionEvaluator.ts *)

Module ConditionEvaluator.

(** The body of the [for (const part of parts)] loop of [getNestedValue],
    with [current] as the loop variable. *)
Fixpoint walk (current : value) (parts : list string) : value :=
  match parts with
  | [] => current
  | part :: rest =>
      match current with
      | VNull | VUndefined => VUndefined
      | _ =>
          if String.eqb (typeof current) "object" then walk (get current part) rest
          else VUndefined
      end
  end.

Definition getNestedValue (obj : value) (path : string) : value :=
  let parts := split_dot path in
  walk obj parts.

(** The literal [{ payload: context.payload, context }].  Its own identity is
    never observed: every path has at least one segment. *)
Definition root (context : RuleContext) : value :=
  VObj 0 [("payload", payload context); ("context", context_object context)].

Definition both_numbers (actualValue expectedValue : value)
    (cmp : number -> number -> bool) : bool :=
  match actualValue, expectedValue with
  | VNum a, VNum e => cmp a e
  | _, _ => false
  end.

Definition evaluateCondition (condition : RuleCondition) (context : RuleContext)
    : M bool :=
  let actualValue := getNestedValue (root context) (field condition) in
  let operator := operator condition in
  let expectedValue := value_ condition in
  if String.eqb operator "eq" then
    ret (strictEquals actualValue expectedValue)
  else if String.eqb operator "neq" then
    ret (negb (strictEquals actualValue expectedValue))
  else if String.eqb operator "gt" then
    ret (both_numbers actualValue expectedValue (fun a e => PrimFloat.ltb e a))
  else if String.eqb operator "gte" then
    ret (both_numbers actualValue expectedValue (fun a e => PrimFloat.leb e a))
  else if String.eqb operator "lt" then
    ret (both_numbers actualValue expectedValue (fun a e => PrimFloat.ltb a e))
  else if String.eqb operator "lte" then
    ret (both_numbers actualValue expectedValue (fun a e => PrimFloat.leb a e))
  else if String.eqb operator "contains" then
    match actualValue, expectedValue with
    | VStr a, VStr e => ret (includes a e)
    | VArr _ items, _ => ret (array_includes items expectedValue)
    | _, _ => ret false
    end
  else
    emit (WarnUnknownOperator operator) ;; ret false.

(** [conditions.every(f)]: stops at the first condition that fails. *)
Fixpoint every (conditions : list RuleCondition) (f : RuleCondition -> M bool)
    : M bool :=
  match conditions with
  | [] => ret true
  | condition :: rest =>
      b <- f condition ;;
      if b then every rest f else ret false
  end.

Definition evaluateConditions (conditions : list RuleCondition)
    (context : RuleContext) : M bool :=
  if Nat.eqb (length conditions) 0 then ret true
  else every conditions (fun condition => evaluateCondition condition context).

End ConditionEvaluator.

(** ** actionExecutor.ts *)

(** What the outside answers.  Every answer may depend on the world in which
    the call is made. *)
Record Env := {
  (** ['Notification' in window] *)
  notification_in_window : World -> outcome bool;
  (** [Notification.permission] *)
  notification_permission : World -> outcome string;
  (** [await Notification.requestPermission()] *)
  request_permission : World -> outcome string;
  (** [new Notification(title, { body, icon })] *)
  new_notification : World -> value -> value -> outcome unit;
  (** [await import('@/modules/core-time/store/timerStore')] *)
  import_timer_store : World -> outcome unit;
  (** [await useTimerStore.getState().startTimer(activityId, mode)] *)
  start_timer : World -> value -> string -> outcome value;
}.

Module ActionExecutor.

Section WithEnv.

Variable env : Env.

(** A read of the outside: no event. *)
Definition ask {A} (answer : World -> outcome A) : M A :=
  fun w => (answer w, w).

(** A call to the outside: the event is recorded, then the answer, computed
    in the world of the call, is returned or thrown. *)
Definition call {A} (e : event) (answer : World -> outcome A) : M A :=
  fun w => (answer w, {| trace := trace w ++ [e]; next_ref := next_ref w |}).

Definition Notification_new (title body : value) : M unit :=
  call (NewNotification title body) (fun w => new_notification env w title body).

Definition executeNotify (params : record) (_context : RuleContext)
    : M ActionResult :=
  let title := or_else (prop params "title") (VStr "LifeFlow Bildirimi") in
  let body := or_else (prop params "body") (VStr "") in
  let granted :=
    {| actionType := "NOTIFY"; success := true; error := None; data := None |} in
  let refused :=
    {| actionType := "NOTIFY"; success := false;
       error := Some "Bildirim izni verilmedi"; data := None |} in
  try_catch
    (present <- ask (notification_in_window env) ;;
     if present then
       current <- ask (notification_permission env) ;;
       if String.eqb current "granted" then
         Notification_new title body ;;
         ret granted
       else
         current' <- ask (notification_permission env) ;;
         if negb (String.eqb current' "denied") then
           permission <- call RequestPermission (request_permission env) ;;
           if String.eqb permission "granted" then
             Notification_new title body ;;
             ret granted
           else ret refused
         else ret refused
     else ret refused)
    (fun error =>
       ret {| actionType := "NOTIFY"; success := false;
              error := Some (String_ error); data := None |}).

Definition executeLogMessage (params : record) (_context : RuleContext)
    : M ActionResult :=
  let message := prop params "message" in
  emit (LogMessage message (payload _context)) ;;
  ret {| actionType := "LOG_MESSAGE"; success := true; error := None;
         data := Some [("message", message)] |}.

Definition executeStartTimer (params : record) (_context : RuleContext)
    : M ActionResult :=
  let activityId := prop params "activityId" in
  if negb (truthy activityId) then
    ret {| actionType := "START_TIMER"; success := false;
           error := Some "activityId gerekli"; data := None |}
  else
    try_catch
      (call ImportTimerStore (import_timer_store env) ;;
       timerId <- call (StartTimer activityId "normal")
                       (fun w => start_timer env w activityId "normal") ;;
       ret {| actionType := "START_TIMER"; success := true; error := None;
              data := Some [("timerId", timerId)] |})
      (fun error =>
         ret {| actionType := "START_TIMER"; success := false;
                error := Some (String_ error); data := None |}).

Definition executeTriggerBreak (params : record) (_context : RuleContext)
    : M ActionResult :=
  let duration := or_else (prop params "duration") (VNum (5 * 60)%float) in
  let isLongBreak := or_else (prop params "isLongBreak") (VBool false) in
  emit (LogTriggeringBreak duration isLongBreak) ;;
  ret {| actionType := "TRIGGER_BREAK"; success := true; error := None;
         data := Some [("duration", duration); ("isLongBreak", isLongBreak)] |}.

Definition executeAction (action : RuleActionConfig) (context : RuleContext)
    : M ActionResult :=
  let type := type_ action in
  let params := params action in
  if String.eqb type "NOTIFY" then executeNotify params context
  else if String.eqb type "LOG_MESSAGE" then executeLogMessage params context
  else if String.eqb type "START_TIMER" then executeStartTimer params context
  else if String.eqb type "TRIGGER_BREAK" then executeTriggerBreak params context
  else
    ret {| actionType := type; success := false;
           error := Some (String.append "Bilinmeyen aksiyon türü: " type);
           data := None |}.

(** The [for (const action of actions)] loop of [executeActions], with the
    array [results] built so far. *)
Fixpoint executeActions_loop (actions : list RuleActionConfig)
    (context : RuleContext) (results : list ActionResult)
    : M (list ActionResult) :=
  match actions with
  | [] => ret results
  | action :: rest =>
      result <- executeAction action context ;;
      let results := results ++ [result] in
      if negb (success result) then
        emit (WarnActionFailed result) ;;
        ret results
      else executeActions_loop rest context results
  end.

Definition executeActions (actions : list RuleActionConfig)
    (context : RuleContext) : M (list ActionResult) :=
  executeActions_loop actions context [].

End WithEnv.

End ActionExecutor.

(** ** ruleEngine.ts *)

Module RuleEngine.

(** The fields of the [RuleEngine] instance. *)
Record Engine := {
  isRunning : bool;
  rulesCache : list Rule;
  rolloverHour : nat;
}.

Section Imports.

(** The two functions [ruleEngine.ts] imports.  The engine's own control flow
    does not depend on what they are, only on their returning or throwing. *)
Variable evaluateConditions : list RuleCondition -> RuleContext -> M bool.
Variable executeActions :
  list RuleActionConfig -> RuleContext -> M (list ActionResult).

Definition buildContext (this : Engine) (payload : value) : M RuleContext :=
  getActivityById <- fresh ;;
  getHabitById <- fresh ;;
  getCurrentTime <- fresh ;;
  getTodayKey <- fresh ;;
  self <- fresh ;;
  ret {| self := self; payload := payload;
         getActivityById := VFun getActivityById;
         getHabitById := VFun getHabitById;
         getCurrentTime := VFun getCurrentTime;
         getTodayKey := VFun getTodayKey |}.

Definition set_matched (result : EvaluatedRule) (b : bool) : EvaluatedRule :=
  {| ruleId := ruleId result; ruleName := ruleName result;
     er_trigger := er_trigger result; matched := b;
     actionsExecuted := actionsExecuted result; er_error := er_error result |}.

Definition set_actionsExecuted (result : EvaluatedRule) (b : bool)
    : EvaluatedRule :=
  {| ruleId := ruleId result; ruleName := ruleName result;
     er_trigger := er_trigger result; matched := matched result;
     actionsExecuted := b; er_error := er_error result |}.

Definition set_error (result : EvaluatedRule) (e : string) : EvaluatedRule :=
  {| ruleId := ruleId result; ruleName := ruleName result;
     er_trigger := er_trigger result; matched := matched result;
     actionsExecuted := actionsExecuted result; er_error := Some e |}.

(** The [try] block of [evaluateAndExecuteRule].  It mutates the local
    [result]; the block returns the state of [result] when it was left,
    and the thrown value if it was left by an exception. *)
Definition try_block (rule : Rule) (context : RuleContext)
    (result : EvaluatedRule) : World -> (EvaluatedRule * option thrown) * World :=
  fun w =>
    match evaluateConditions (conditions rule) context w with
    | (Throw e, w1) => ((result, Some e), w1)
    | (Ok conditionsMatch, w1) =>
        let result := set_matched result conditionsMatch in
        if conditionsMatch then
          match executeActions (actions rule) context w1 with
          | (Throw e, w2) => ((result, Some e), w2)
          | (Ok actionResults, w2) =>
              let result :=
                set_actionsExecuted result (forallb success actionResults) in
              let result :=
                if negb (actionsExecuted result) then
                  match find (fun r => negb (success r)) actionResults with
                  | Some failedAction =>
                      match error failedAction with
                      | Some e =>
                          if negb (String.eqb e "") then set_error result e
                          else result
                      | None => result
                      end
                  | None => result
                  end
                else result in
              ((result, None),
               snd (emit (LogRuleExecuted (name rule) (trigger rule)
                            (actionsExecuted result)) w2))
          end
        else ((result, None), w1)
    end.

Definition evaluateAndExecuteRule (rule : Rule) (context : RuleContext)
    : M EvaluatedRule :=
  let result :=
    {| ruleId := id rule; ruleName := name rule; er_trigger := trigger rule;
       matched := false; actionsExecuted := false; er_error := None |} in
  fun w =>
    match try_block rule context result w with
    | ((result, None), w') => (Ok result, w')
    | ((result, Some error), w') =>
        let result := set_error result (String_ error) in
        (Ok result, snd (emit (ErrorRuleEvaluation error) w'))
    end.

(** The [for (const rule of matchingRules)] loop of [handleEvent]. *)
Fixpoint handleEvent_loop (matchingRules : list Rule) (context : RuleContext)
    (results : list EvaluatedRule) : M (list EvaluatedRule) :=
  match matchingRules with
  | [] => ret results
  | rule :: rest =>
      result <- evaluateAndExecuteRule rule context ;;
      handleEvent_loop rest context (results ++ [result])
  end.

Definition handleEvent (this : Engine) (eventType : string) (payload : value)
    : M (list EvaluatedRule) :=
  let matchingRules :=
    filter (fun rule => String.eqb (trigger rule) eventType) (rulesCache this) in
  if Nat.eqb (length matchingRules) 0 then ret []
  else
    context <- buildContext this payload ;;
    handleEvent_loop matchingRules context [].

Definition testRule (this : Engine) (rule : Rule) (mockPayload : value)
    : M EvaluatedRule :=
  context <- buildContext this mockPayload ;;
  evaluateAndExecuteRule rule context.

End Imports.

End RuleEngine.

(** ** The program as linked: the engine with its two imports bound *)

Module Program.

Definition evaluateAndExecuteRule (env : Env) :=
  RuleEngine.evaluateAndExecuteRule
    ConditionEvaluator.evaluateConditions (ActionExecutor.executeActions env).

Definition handleEvent (env : Env) :=
  RuleEngine.handleEvent
    ConditionEvaluator.evaluateConditions (ActionExecutor.executeActions env).

Definition testRule (env : Env) :=
  RuleEngine.testRule
    ConditionEvaluator.evaluateConditions (ActionExecutor.executeActions env).

End Program.

(** ** Notions the specification uses *)

Module Spec.

(** [pat] occurs in [s] as a contiguous run of characters. *)
Definition substring_of (pat s : string) : Prop :=
  exists pre post, s = String.append pre (String.append pat post).

(** Structural equality: same shape and same primitive content, whatever the
    identities of the arrays and objects compared.  On numbers it is
    SameValueZero, the reading under which it agrees with [includes] on
    every primitive. *)
Fixpoint structurally_equal (a b : value) : bool :=
  match a, b with
  | VUndefined, VUndefined => true
  | VNull, VNull => true
  | VBool x, VBool y => Bool.eqb x y
  | VNum x, VNum y => PrimFloat.eqb x y || (isNaN x && isNaN y)
  | VStr x, VStr y => String.eqb x y
  | VArr _ xs, VArr _ ys =>
      (fix all2 (xs ys : list value) : bool :=
         match xs, ys with
         | [], [] => true
         | x :: xs', y :: ys' => structurally_equal x y && all2 xs' ys'
         | _, _ => false
         end) xs ys
  | VObj _ fs, VObj _ gs =>
      (fix all2 (fs gs : list (string * value)) : bool :=
         match fs, gs with
         | [], [] => true
         | (k, x) :: fs', (l, y) :: gs' =>
             String.eqb k l && structurally_equal x y && all2 fs' gs'
         | _, _ => false
         end) fs gs
  | VFun i, VFun j => Nat.eqb i j
  | _, _ => false
  end.

(** A scalar: a value that is not an array, an object or a function. *)
Definition scalar (v : value) : bool :=
  match v with
  | VArr _ _ | VObj _ _ | VFun _ => false
  | _ => true
  end.

Section Sequential.

Variable env : Env.
Variable context : RuleContext.

(** [succeed_in_order actions w results w']: started in world [w], the
    actions are executed one after the other, each in the world its
    predecessor left; every one of them succeeds; [results] are their
    results in order and [w'] is the world after the last. *)
Inductive succeed_in_order
    : list RuleActionConfig -> World -> list ActionResult -> World -> Prop :=
| succeed_none w : succeed_in_order [] w [] w
| succeed_next action rest w result w1 results w2 :
    ActionExecutor.executeAction env action context w = (Ok result, w1) ->
    success result = true ->
    succeed_in_order rest w1 results w2 ->
    succeed_in_order (action :: rest) w (result :: results) w2.

End Sequential.

(** The world after the [console.warn] that reports a failed action. *)
Definition warned (w : World) (result : ActionResult) : World :=
  snd (emit (WarnActionFailed result) w).

(** What [evaluateAndExecuteRule] starts from, and what it returns when the
    conditions do not hold. *)
Definition unmatched (rule : Rule) : EvaluatedRule :=
  {| ruleId := id rule; ruleName := name rule; er_trigger := trigger rule;
     matched := false; actionsExecuted := false; er_error := None |}.

(** The first failure among the results of an execution, if any. *)
Definition first_failure (results : list ActionResult) : option ActionResult :=
  find (fun r => negb (success r)) results.

(** The result record is the record of this rule. *)
Definition result_of (rule : Rule) (result : EvaluatedRule) : Prop :=
  ruleId result = id rule /\ ruleName result = name rule /\
  er_trigger result = trigger rule.

End Spec.

(** ** Concrete environments, contexts and rules *)

Module Samples.

(** [createMockContext] of the evaluator's test suite. *)
Definition createMockContext (payload : value) : RuleContext :=
  {| self := 1; payload := payload;
     getActivityById := VFun 2; getHabitById := VFun 3;
     getCurrentTime := VFun 4; getTodayKey := VFun 5 |}.

Definition start : World := {| trace := []; next_ref := 100 |}.

(** A browser that has granted notifications and whose timer store starts
    timers. *)
Definition browser : Env :=
  {| notification_in_window := fun _ => Ok true;
     notification_permission := fun _ => Ok "granted";
     request_permission := fun _ => Ok "granted";
     new_notification := fun _ _ _ => Ok tt;
     import_timer_store := fun _ => Ok tt;
     start_timer := fun _ _ _ => Ok (VStr "timer-1") |}.

(** As [browser], with notifications denied. *)
Definition browser_denied : Env :=
  {| notification_in_window := fun _ => Ok true;
     notification_permission := fun _ => Ok "denied";
     request_permission := fun _ => Ok "denied";
     new_notification := fun _ _ _ => Ok tt;
     import_timer_store := fun _ => Ok tt;
     start_timer := fun _ _ _ => Ok (VStr "timer-1") |}.

(** As [browser], with a timer store whose [startTimer] rejects with a value
    that [String] renders as [rendering]. *)
Definition timer_rejects (rendering : string) : Env :=
  {| notification_in_window := fun _ => Ok true;
     notification_permission := fun _ => Ok "granted";
     request_permission := fun _ => Ok "granted";
     new_notification := fun _ _ _ => Ok tt;
     import_timer_store := fun _ => Ok tt;
     start_timer := fun _ _ _ => Throw (Thrown rendering) |}.

Definition log (message : string) : RuleActionConfig :=
  {| type_ := "LOG_MESSAGE"; params := [("message", VStr message)] |}.

Definition notify : RuleActionConfig :=
  {| type_ := "NOTIFY"; params := [("title", VStr "Pomodoro")] |}.

Definition start_timer_for (activityId : string) : RuleActionConfig :=
  {| type_ := "START_TIMER"; params := [("activityId", VStr activityId)] |}.

Definition start_timer_without_activity : RuleActionConfig :=
  {| type_ := "START_TIMER"; params := [] |}.

(** The [session-to-habit] template of [RULE_TEMPLATES]. *)
Definition session_to_habit : Rule :=
  {| id := "session-to-habit";
     name := "Süre Hedefine Ulaşınca Alışkanlık Tamamla";
     trigger := "SESSION_CREATED";
     conditions :=
       [{| field := "payload.session.durationSec"; operator := "gte";
           value_ := VNum 1800%float |}];
     actions := [log "Hedef süreye ulaşıldı!"];
     enabled := true |}.

Definition session (durationSec : number) : value :=
  VObj 10 [("session", VObj 11 [("id", VStr "123");
                                ("durationSec", VNum durationSec)])].

(** Two rules on [POMODORO_COMPLETED]: the first one's first action fails
    for want of an [activityId], the second one's actions all succeed. *)
Definition failing_rule : Rule :=
  {| id := "r1"; name := "fails"; trigger := "POMODORO_COMPLETED";
     conditions := [];
     actions := [start_timer_without_activity; log "never"];
     enabled := true |}.

Definition succeeding_rule : Rule :=
  {| id := "r2"; name := "succeeds"; trigger := "POMODORO_COMPLETED";
     conditions := [];
     actions := [log "a"; log "b"];
     enabled := true |}.

Definition no_actions_rule : Rule :=
  {| id := "r3"; name := "records"; trigger := "GOAL_REACHED";
     conditions := []; actions := []; enabled := true |}.

(** A rule whose only action starts a timer. *)
Definition timer_rule : Rule :=
  {| id := "r4"; name := "starts a timer"; trigger := "HABIT_CHECKED";
     conditions := []; actions := [start_timer_for "reading"];
     enabled := true |}.

Definition trigger_break (params : record) : RuleActionConfig :=
  {| type_ := "TRIGGER_BREAK"; params := params |}.

Definition engine : RuleEngine.Engine :=
  {| RuleEngine.isRunning := true;
     RuleEngine.rulesCache :=
       [failing_rule; session_to_habit; succeeding_rule; no_actions_rule];
     RuleEngine.rolloverHour := 4 |}.

(** Imports that misbehave: an evaluator and an executor that throw. *)
Definition throwing_evaluator (message : string)
    : list RuleCondition -> RuleContext -> M bool :=
  fun _ _ => throw (Thrown message).

Definition throwing_executor (message : string)
    : list RuleActionConfig -> RuleContext -> M (list ActionResult) :=
  fun _ _ => throw (Thrown message).

End Samples.

(** ** The engine's life cycle and the rules store

    [ruleEngine.ts] ([start], [stop], [loadRules], [reloadRules],
    [subscribeToEvents], [getStatus]) and [rulesStore.ts] talk to three
    collaborators that are not part of this code: the database [db], the
    event bus [eventBus] and the helpers [generateId] and [Date.now].  As
    for the executor, a collaborator is an oracle: what each call answers,
    given the calls made so far.  The mutable objects of the program, the
    engine singleton and the state of the store, are fields of the system
    state that the computations thread. *)

Module Host.

(** The object [eventBus.subscribe] returns, by identity. *)
Definition subscription := nat.

(** A [Rule] as the store and the database hold it: with the two timestamps
    that the engine never reads. *)
Record RuleRow := {
  rule : Rule;
  createdAt : number;
  updatedAt : number;
}.

(** [Partial<Rule>]: the fields that are present. *)
Record RulePatch := {
  patch_id : option string;
  patch_name : option string;
  patch_trigger : option string;
  patch_conditions : option (list RuleCondition);
  patch_actions : option (list RuleActionConfig);
  patch_enabled : option bool;
  patch_createdAt : option number;
  patch_updatedAt : option number;
}.

(** The data of the zustand store. *)
Record RulesState := {
  rules : list RuleRow;
  isLoading : bool;
}.

(** The private fields of the [RuleEngine] singleton: those the dispatch
    reads, and the subscriptions held. *)
Record Instance := {
  engine : RuleEngine.Engine;
  unsubscribers : list subscription;
}.

(** Calls made to the collaborators and to the console, in order. *)
Inductive call :=
| DbRulesWhereEnabled
| DbRulesToArray
| DbRulesAdd (row : RuleRow)
| DbRulesUpdate (id : string) (changes : RulePatch)
| DbRulesDelete (id : string)
| BusSubscribe (eventType : string)
| Unsubscribe (s : subscription)
| GenerateId
| DateNow
| WarnAlreadyRunning
| LogStarted (ruleCount : nat)
| LogStopped
| ErrorLoadFailed (error : thrown)
| LogReloaded (ruleCount : nat)
| ErrorInitializeFailed (error : thrown).

Record Collaborators := {
  (** [await db.rules.where('enabled').equals(1).toArray()] *)
  db_rules_where_enabled : list call -> outcome (list Rule);
  (** [await db.rules.toArray()] *)
  db_rules_toArray : list call -> outcome (list RuleRow);
  (** [await db.rules.add(rule)] *)
  db_rules_add : list call -> RuleRow -> outcome unit;
  (** [await db.rules.update(id, changes)] *)
  db_rules_update : list call -> string -> RulePatch -> outcome unit;
  (** [await db.rules.delete(id)] *)
  db_rules_delete : list call -> string -> outcome unit;
  (** [eventBus.subscribe(eventType, handler)] *)
  eventBus_subscribe : list call -> string -> outcome subscription;
  (** [sub.unsubscribe()] *)
  subscription_unsubscribe : list call -> subscription -> outcome unit;
  (** [generateId()] *)
  generateId : list call -> string;
  (** [Date.now()] *)
  Date_now : list call -> number;
}.

Record Sys := {
  history : list call;
  this : Instance;
  state : RulesState;
}.

(** Computations over the system state that return or throw. *)
Definition H (A : Type) : Type := Sys -> outcome A * Sys.

Definition retH {A} (a : A) : H A := fun s => (Ok a, s).

Definition bindH {A B} (m : H A) (k : A -> H B) : H B :=
  fun s =>
    match m s with
    | (Ok a, s') => k a s'
    | (Throw e, s') => (Throw e, s')
    end.

Definition throwH {A} (e : thrown) : H A := fun s => (Throw e, s).

Definition try_catchH {A} (body : H A) (handler : thrown -> H A) : H A :=
  fun s =>
    match body s with
    | (Ok a, s') => (Ok a, s')
    | (Throw e, s') => handler e s'
    end.

Definition record_call (c : call) (s : Sys) : Sys :=
  {| history := history s ++ [c]; this := this s; state := state s |}.

(** A call to a collaborator: recorded, then answered from the calls made
    before it. *)
Definition request {A} (c : call) (answer : list call -> outcome A) : H A :=
  fun s => (answer (history s), record_call c s).

(** A console line. *)
Definition note (c : call) : H unit := fun s => (Ok tt, record_call c s).

Definition get_this : H Instance := fun s => (Ok (this s), s).

Definition set_this (i : Instance) : H unit :=
  fun s => (Ok tt, {| history := history s; this := i; state := state s |}).

Definition get_state : H RulesState := fun s => (Ok (state s), s).

(** zustand's [set]: the new state is computed from the current one. *)
Definition set_state (f : RulesState -> RulesState) : H unit :=
  fun s =>
    (Ok tt, {| history := history s; this := this s; state := f (state s) |}).

Declare Scope host_scope.
Delimit Scope host_scope with host.
Notation "x <- m ;; k" := (bindH m (fun x => k))
  (at level 100, m at next level, right associativity) : host_scope.
Notation "m ;; k" := (bindH m (fun _ => k))
  (at level 100, right associativity) : host_scope.

End Host.

(** *** ruleEngine.ts: the life cycle *)

Module RuleEngineInstance.

Import Host.
Local Open Scope host_scope.

(** The singleton as constructed: stopped, nothing cached, rollover at 4. *)
Definition initial : Instance :=
  {| engine := {| RuleEngine.isRunning := false; RuleEngine.rulesCache := [];
                  RuleEngine.rolloverHour := 4 |};
     unsubscribers := [] |}.

Definition set_isRunning (b : bool) : H unit :=
  i <- get_this ;;
  set_this {| engine := {| RuleEngine.isRunning := b;
                           RuleEngine.rulesCache :=
                             RuleEngine.rulesCache (engine i);
                           RuleEngine.rolloverHour :=
                             RuleEngine.rolloverHour (engine i) |};
              unsubscribers := unsubscribers i |}.

Definition set_rulesCache (cache : list Rule) : H unit :=
  i <- get_this ;;
  set_this {| engine := {| RuleEngine.isRunning :=
                             RuleEngine.isRunning (engine i);
                           RuleEngine.rulesCache := cache;
                           RuleEngine.rolloverHour :=
                             RuleEngine.rolloverHour (engine i) |};
              unsubscribers := unsubscribers i |}.

Definition set_rolloverHour (h : nat) : H unit :=
  i <- get_this ;;
  set_this {| engine := {| RuleEngine.isRunning :=
                             RuleEngine.isRunning (engine i);
                           RuleEngine.rulesCache :=
                             RuleEngine.rulesCache (engine i);
                           RuleEngine.rolloverHour := h |};
              unsubscribers := unsubscribers i |}.

Definition set_unsubscribers (subs : list subscription) : H unit :=
  i <- get_this ;;
  set_this {| engine := engine i; unsubscribers := subs |}.

Section WithCollaborators.

Variable host : Collaborators.

Definition loadRules : H unit :=
  try_catchH
    (cache <- request DbRulesWhereEnabled (db_rules_where_enabled host) ;;
     set_rulesCache cache)
    (fun error =>
       note (ErrorLoadFailed error) ;;
       set_rulesCache []).

Definition reloadRules : H unit :=
  loadRules ;;
  i <- get_this ;;
  note (LogReloaded (length (RuleEngine.rulesCache (engine i)))).

Definition eventTypes : list string :=
  ["TIMER_STARTED"; "TIMER_STOPPED"; "SESSION_CREATED"; "HABIT_CHECKED";
   "POMODORO_COMPLETED"; "GOAL_REACHED"; "DAY_ROLLOVER"].

(** The [for (const eventType of eventTypes)] loop of [subscribeToEvents]. *)
Fixpoint subscribe_each (types : list string) : H unit :=
  match types with
  | [] => retH tt
  | eventType :: rest =>
      subscription <-
        request (BusSubscribe eventType)
                (fun h => eventBus_subscribe host h eventType) ;;
      i <- get_this ;;
      set_unsubscribers (unsubscribers i ++ [subscription]) ;;
      subscribe_each rest
  end.

Definition subscribeToEvents : H unit := subscribe_each eventTypes.

Definition start (rolloverHour : nat) : H unit :=
  i <- get_this ;;
  if RuleEngine.isRunning (engine i) then note WarnAlreadyRunning
  else
    set_rolloverHour rolloverHour ;;
    loadRules ;;
    subscribeToEvents ;;
    set_isRunning true ;;
    i <- get_this ;;
    note (LogStarted (length (RuleEngine.rulesCache (engine i)))).

(** [this.unsubscribers.forEach((sub) => sub.unsubscribe())] *)
Fixpoint unsubscribe_each (subs : list subscription) : H unit :=
  match subs with
  | [] => retH tt
  | sub :: rest =>
      request (Unsubscribe sub)
              (fun h => subscription_unsubscribe host h sub) ;;
      unsubscribe_each rest
  end.

Definition stop : H unit :=
  i <- get_this ;;
  unsubscribe_each (unsubscribers i) ;;
  set_unsubscribers [] ;;
  set_isRunning false ;;
  note LogStopped.

Definition getStatus : H (bool * nat) :=
  i <- get_this ;;
  retH (RuleEngine.isRunning (engine i),
        length (RuleEngine.rulesCache (engine i))).

End WithCollaborators.

End RuleEngineInstance.

(** *** rulesStore.ts *)

Module RulesStore.

Import Host.
Local Open Scope host_scope.

(** The argument of [createRule]. *)
Record NewRule := {
  new_name : string;
  new_trigger : string;
  new_conditions : list RuleCondition;
  new_actions : list RuleActionConfig;
  new_enabled : option bool;
}.

Definition no_change : RulePatch :=
  {| patch_id := None; patch_name := None; patch_trigger := None;
     patch_conditions := None; patch_actions := None; patch_enabled := None;
     patch_createdAt := None; patch_updatedAt := None |}.

(** [a ?? b] *)
Definition nullish {A} (a : option A) (b : A) : A :=
  match a with Some x => x | None => b end.

(** [{ ...data, updatedAt: now }] *)
Definition stamped (data : RulePatch) (now : number) : RulePatch :=
  {| patch_id := patch_id data; patch_name := patch_name data;
     patch_trigger := patch_trigger data;
     patch_conditions := patch_conditions data;
     patch_actions := patch_actions data;
     patch_enabled := patch_enabled data;
     patch_createdAt := patch_createdAt data;
     patch_updatedAt := Some now |}.

(** [{ ...r, ...changes }] *)
Definition spread (r : RuleRow) (changes : RulePatch) : RuleRow :=
  {| rule :=
       {| id := nullish (patch_id changes) (id (rule r));
          name := nullish (patch_name changes) (name (rule r));
          trigger := nullish (patch_trigger changes) (trigger (rule r));
          conditions :=
            nullish (patch_conditions changes) (conditions (rule r));
          actions := nullish (patch_actions changes) (actions (rule r));
          enabled := nullish (patch_enabled changes) (enabled (rule r)) |};
     createdAt := nullish (patch_createdAt changes) (createdAt r);
     updatedAt := nullish (patch_updatedAt changes) (updatedAt r) |}.

(** Selectors, on the current state. *)
Definition getRuleById (s : RulesState) (id_ : string) : option RuleRow :=
  find (fun r => String.eqb (id (rule r)) id_) (rules s).

Definition getActiveRules (s : RulesState) : list RuleRow :=
  filter (fun r => enabled (rule r)) (rules s).

Definition getRulesByTrigger (s : RulesState) (trigger_ : string)
    : list RuleRow :=
  filter (fun r => String.eqb (trigger (rule r)) trigger_) (rules s).

Section WithCollaborators.

Variable host : Collaborators.

Definition initialize : H unit :=
  try_catchH
    (rows <- request DbRulesToArray (db_rules_toArray host) ;;
     set_state (fun _ => {| rules := rows; isLoading := false |}))
    (fun error =>
       note (ErrorInitializeFailed error) ;;
       set_state (fun s => {| rules := rules s; isLoading := false |})).

Definition createRule (data : NewRule) : H string :=
  id_ <- request GenerateId (fun h => Ok (generateId host h)) ;;
  now <- request DateNow (fun h => Ok (Date_now host h)) ;;
  let row :=
    {| rule := {| id := id_; name := new_name data;
                  trigger := new_trigger data;
                  conditions := new_conditions data;
                  actions := new_actions data;
                  enabled := nullish (new_enabled data) true |};
       createdAt := now; updatedAt := now |} in
  request (DbRulesAdd row) (fun h => db_rules_add host h row) ;;
  set_state (fun s => {| rules := rules s ++ [row];
                         isLoading := isLoading s |}) ;;
  RuleEngineInstance.reloadRules host ;;
  retH id_.

Definition updateRule (id_ : string) (data : RulePatch) : H unit :=
  now <- request DateNow (fun h => Ok (Date_now host h)) ;;
  request (DbRulesUpdate id_ (stamped data now))
          (fun h => db_rules_update host h id_ (stamped data now)) ;;
  set_state (fun s =>
    {| rules := map (fun r => if String.eqb (id (rule r)) id_
                              then spread r (stamped data now) else r)
                    (rules s);
       isLoading := isLoading s |}) ;;
  RuleEngineInstance.reloadRules host.

Definition deleteRule (id_ : string) : H unit :=
  request (DbRulesDelete id_) (fun h => db_rules_delete host h id_) ;;
  set_state (fun s =>
    {| rules := filter (fun r => negb (String.eqb (id (rule r)) id_))
                       (rules s);
       isLoading := isLoading s |}) ;;
  RuleEngineInstance.reloadRules host.

Definition toggleRule (id_ : string) : H unit :=
  s <- get_state ;;
  match getRuleById s id_ with
  | None => retH tt
  | Some r =>
      updateRule id_
        {| patch_id := None; patch_name := None; patch_trigger := None;
           patch_conditions := None; patch_actions := None;
           patch_enabled := Some (negb (enabled (rule r)));
           patch_createdAt := None; patch_updatedAt := None |}
  end.

Definition duplicateRule (id_ : string) : H string :=
  s <- get_state ;;
  match getRuleById s id_ with
  | None => throwH (Thrown "Error: Kural bulunamadı")
  | Some r =>
      createRule
        {| new_name := String.append (name (rule r)) " (Kopya)";
           new_trigger := trigger (rule r);
           new_conditions := conditions (rule r);
           new_actions := actions (rule r);
           new_enabled := Some false |}
  end.

End WithCollaborators.

End RulesStore.

(** ** Notions for the further properties *)

Module Notions.

(** A result of the given type that has an error message exactly when it is
    a failure. *)
Definition coherent (type : string) (result : ActionResult) : Prop :=
  actionType result = type /\
  (error result = None <-> success result = true).

(** The world after one more call to the outside. *)
Definition after_call (w : World) (e : event) : World :=
  {| trace := trace w ++ [e]; next_ref := next_ref w |}.

(** The failure of an action, as a result. *)
Definition failure (type message : string) : ActionResult :=
  {| actionType := type; success := false; error := Some message;
     data := None |}.

(** The row [createRule] builds from its argument, the id generated and the
    time read. *)
Definition created (data : RulesStore.NewRule) (id_ : string) (now : number)
    : Host.RuleRow :=
  {| Host.rule :=
       {| id := id_; name := RulesStore.new_name data;
          trigger := RulesStore.new_trigger data;
          conditions := RulesStore.new_conditions data;
          actions := RulesStore.new_actions data;
          enabled := RulesStore.nullish (RulesStore.new_enabled data) true |};
     Host.createdAt := now; Host.updatedAt := now |}.

(** [{ enabled: b }] *)
Definition only_enabled (b : bool) : Host.RulePatch :=
  {| Host.patch_id := None; Host.patch_name := None;
     Host.patch_trigger := None; Host.patch_conditions := None;
     Host.patch_actions := None; Host.patch_enabled := Some b;
     Host.patch_createdAt := None; Host.patch_updatedAt := None |}.

Section Dispatch.

Variable evaluateConditions : list RuleCondition -> RuleContext -> M bool.
Variable executeActions :
  list RuleActionConfig -> RuleContext -> M (list ActionResult).

(** [evaluated_in_order context rules w results w']: started in world [w],
    every rule of the list is evaluated and executed by
    [evaluateAndExecuteRule] against [context], one after the other, each in
    the world its predecessor left, whatever the predecessor's record says;
    [results] are the records returned, in order, and [w'] is the world
    after the last. *)
Inductive evaluated_in_order (context : RuleContext)
    : list Rule -> World -> list EvaluatedRule -> World -> Prop :=
| evaluated_none w : evaluated_in_order context [] w [] w
| evaluated_next rule rest w result w1 results w2 :
    RuleEngine.evaluateAndExecuteRule evaluateConditions executeActions
      rule context w = (Ok result, w1) ->
    evaluated_in_order context rest w1 results w2 ->
    evaluated_in_order context (rule :: rest) w (result :: results) w2.

End Dispatch.

End Notions.

(** ** Concrete collaborators *)

Module HostSamples.

Import Host.

(** A database that holds one enabled rule, a bus that numbers its
    subscriptions by the calls made so far, a clock stopped at 1000. *)
Definition quiet : Collaborators :=
  {| db_rules_where_enabled := fun _ => Ok [Samples.session_to_habit];
     db_rules_toArray := fun _ => Ok [];
     db_rules_add := fun _ _ => Ok tt;
     db_rules_update := fun _ _ _ => Ok tt;
     db_rules_delete := fun _ _ => Ok tt;
     eventBus_subscribe := fun h _ => Ok (length h);
     subscription_unsubscribe := fun _ _ => Ok tt;
     generateId := fun h => String.append "rule-" (string_of_nat (length h));
     Date_now := fun _ => 1000%float |}.

(** As [quiet], with a database that rejects every request. *)
Definition broken_db : Collaborators :=
  {| db_rules_where_enabled := fun _ => Throw (Thrown "DatabaseClosedError");
     db_rules_toArray := fun _ => Throw (Thrown "DatabaseClosedError");
     db_rules_add := fun _ _ => Throw (Thrown "DatabaseClosedError");
     db_rules_update := fun _ _ _ => Throw (Thrown "DatabaseClosedError");
     db_rules_delete := fun _ _ => Throw (Thrown "DatabaseClosedError");
     eventBus_subscribe := fun h _ => Ok (length h);
     subscription_unsubscribe := fun _ _ => Ok tt;
     generateId := fun h => String.append "rule-" (string_of_nat (length h));
     Date_now := fun _ => 1000%float |}.

(** The program as loaded: engine constructed, store created. *)
Definition boot : Sys :=
  {| history := []; this := RuleEngineInstance.initial;
     state := {| rules := []; isLoading := true |} |}.

Definition row_of (r : Rule) : RuleRow :=
  {| rule := r; createdAt := 1%float; updatedAt := 1%float |}.

(** A running engine and a store that holds two rules. *)
Definition loaded : Sys :=
  {| history := [];
     this := {| engine := Samples.engine; unsubscribers := [3; 5] |};
     state := {| rules := [row_of Samples.failing_rule;
                           row_of Samples.session_to_habit];
                 isLoading := false |} |}.

Definition pomodoro_rule : RulesStore.NewRule :=
  {| RulesStore.new_name := "Pomodoro";
     RulesStore.new_trigger := "POMODORO_COMPLETED";
     RulesStore.new_conditions := [];
     RulesStore.new_actions := [Samples.notify];
     RulesStore.new_enabled := None |}.

End HostSamples.

(** * Properties *)

(** One step of symbolic execution: case analysis on the next answer of the
    outside or the next test. *)
Ltac step :=
  match goal with
  | |- context [match ?x with _ => _ end] => destruct x eqn:?
  end; cbn.

(** A run that returned: its result is exhibited and checked. *)
Ltac conclude :=
  eexists; eexists; (split; [reflexivity|]); unfold Notions.coherent; cbn;
  (split; [reflexivity|]); split; intros; congruence.

(** The run ended in a failure, against the assumption that it succeeded. *)
Ltac failed_run Hrun Hsuccess :=
  injection Hrun as <- <-; cbn in Hsuccess; discriminate Hsuccess.

(** The same, on a test that contains no other test. *)
Ltac step_inner :=
  match goal with
  | |- context [match ?x with _ => _ end] =>
      lazymatch x with
      | context [match _ with _ => _ end] => fail
      | _ => destruct x eqn:?
      end
  end; cbn.

(** ** Strings and values *)

Section StringFacts.

Lemma prefix_iff (pat s : string) :
  String.prefix pat s = true <-> exists post, s = String.append pat post.
Proof.
  revert s.
  induction pat as [|c pat IH]; intros s; simpl.
  - split; [intros _; now exists s | intros _; now destruct s].
  - destruct s as [|d s]; simpl.
    + split; [discriminate | intros [post H]; discriminate].
    + destruct (Ascii.ascii_dec c d) as [->|Hcd].
      * rewrite IH. split; intros [post H]; exists post; congruence.
      * split; [discriminate | intros [post H]; congruence].
Qed.

(** [includes] is substring containment. *)
Lemma includes_iff (s pat : string) :
  includes s pat = true <-> Spec.substring_of pat s.
Proof.
  unfold Spec.substring_of.
  induction s as [|c s IH].
  - change (includes "" pat) with (String.prefix pat "" || false).
    rewrite orb_false_r, prefix_iff. split.
    + intros [post H]. now exists "", post.
    + intros (pre & post & H). destruct pre; [now exists post | discriminate].
  - change (includes (String c s) pat)
      with (String.prefix pat (String c s) || includes s pat).
    rewrite orb_true_iff, IH, prefix_iff. split.
    + intros [[post H]|(pre & post & H)].
      * now exists "", post.
      * exists (String c pre), post. simpl. now rewrite H.
    + intros (pre & post & H). destruct pre as [|d pre]; simpl in H.
      * left. now exists post.
      * right. exists pre, post. congruence.
Qed.

Lemma array_includes_iff (items : list value) (x : value) :
  array_includes items x = true <->
  exists y, In y items /\ sameValueZero y x = true.
Proof. unfold array_includes. apply existsb_exists. Qed.

(** On a scalar, SameValueZero is structural equality. *)
Lemma sameValueZero_scalar (y x : value) :
  Spec.scalar x = true -> sameValueZero y x = Spec.structurally_equal y x.
Proof. destruct x; try discriminate; intros _; destruct y; reflexivity. Qed.

Lemma strictEquals_undefined (x : value) :
  x <> VUndefined -> strictEquals VUndefined x = false.
Proof. destruct x; intros H; try reflexivity. now elim H. Qed.

End StringFacts.

(** ** The condition evaluator *)

Section ConditionEvaluatorFacts.

Import ConditionEvaluator.

Lemma walk_undefined (parts : list string) : walk VUndefined parts = VUndefined.
Proof. destruct parts; reflexivity. Qed.

(** Once the walk has nothing to descend into, it yields [undefined]. *)
Lemma walk_stuck (current : value) (parts : list string) :
  parts <> [] ->
  current = VUndefined \/ current = VNull \/ typeof current <> "object" ->
  walk current parts = VUndefined.
Proof.
  intros Hparts Hcur. destruct parts as [|part rest]; [now elim Hparts|].
  destruct Hcur as [->| [->|Hty]]; try reflexivity.
  destruct current; try reflexivity; now elim Hty.
Qed.

(** Walking a path is walking its first segments, then the others. *)
Lemma walk_app (current : value) (pre rest : list string) :
  walk current (pre ++ rest) = walk (walk current pre) rest.
Proof.
  revert current. induction pre as [|part pre IH]; intros current; simpl.
  - reflexivity.
  - destruct current; simpl; try (now rewrite walk_undefined); apply IH.
Qed.

Lemma split_dot_nonempty (s : string) : split_dot s <> [].
Proof.
  induction s as [|c s IH]; simpl; [discriminate|].
  destruct (Ascii.eqb c "."); [discriminate|].
  destruct (split_dot s); discriminate.
Qed.

(** The identity given to the root literal does not matter. *)
Lemma getNestedValue_root_identity (i j : ref) fields (path : string) :
  getNestedValue (VObj i fields) path = getNestedValue (VObj j fields) path.
Proof.
  unfold getNestedValue.
  destruct (split_dot path) as [|part rest] eqn:E; [now apply split_dot_nonempty in E|].
  reflexivity.
Qed.

(** The value a condition evaluates to does not depend on the world. *)
Lemma evaluateCondition_returns condition context :
  exists b, forall w, exists w', evaluateCondition condition context w = (Ok b, w').
Proof.
  unfold evaluateCondition.
  repeat match goal with
  | |- context [if String.eqb ?a ?b then _ else _] =>
      destruct (String.eqb a b);
      [ try (eexists; intros w; eexists; reflexivity) | ]
  end.
  - destruct (getNestedValue _ _), (value_ condition);
      eexists; intros w; eexists; reflexivity.
  - exists false. intros w. eexists. reflexivity.
Qed.

Lemma every_evaluateCondition conditions context w :
  exists b w',
    every conditions (fun c => evaluateCondition c context) w = (Ok b, w') /\
    (b = true <->
     Forall (fun c => forall w1, fst (evaluateCondition c context w1) = Ok true)
            conditions).
Proof.
  revert w. induction conditions as [|c rest IH]; intros w; simpl.
  - exists true, w. split; [reflexivity|]. split; auto.
  - destruct (evaluateCondition_returns c context) as [b Hb].
    destruct (Hb w) as [w1 Hw]. unfold bind at 1. rewrite Hw.
    destruct b.
    + destruct (IH w1) as (b' & w' & Hrun & Hiff).
      exists b', w'. split; [exact Hrun|].
      rewrite Hiff. split.
      * intros HF. constructor; [|exact HF].
        intros w2. destruct (Hb w2) as [w3 ->]. reflexivity.
      * intros HF. now inversion HF.
    + exists false, w1. split; [reflexivity|]. split; [discriminate|].
      intros HF. inversion HF as [|? ? Hc _]; subst.
      specialize (Hc w). rewrite Hw in Hc. discriminate.
Qed.

(** C4. For the operators gt, gte, lt and lte, a condition whose resolved
    value or whose expected value is not a number evaluates to false, the
    world untouched; and for every condition and context, whatever the
    operator, [evaluateCondition] returns a boolean: it never throws. *)
Theorem evaluateCondition_numeric_total condition context w :
  (exists b w', evaluateCondition condition context w = (Ok b, w')) /\
  (In (operator condition) ["gt"; "gte"; "lt"; "lte"] ->
   typeof (getNestedValue (root context) (field condition)) <> "number" \/
   typeof (value_ condition) <> "number" ->
   evaluateCondition condition context w = (Ok false, w)).
Proof.
  split.
  - destruct (evaluateCondition_returns condition context) as [b Hb].
    exists b. apply Hb.
  - intros Hop Hnum. unfold evaluateCondition.
    simpl in Hop.
    destruct Hop as [<-|[<-|[<-|[<-|[]]]]]; simpl;
      destruct (getNestedValue _ _) as [| | | a | | | |];
      try reflexivity;
      destruct (value_ condition); try reflexivity;
      destruct Hnum as [H|H]; now elim H.
Qed.

(** C5. When the walk along a dotted path reaches an absent value, null or
    a value that is not an object while segments remain, the path resolves
    to undefined; an eq condition on that path against an expected value
    other than undefined is then false, and a neq condition true. *)
Theorem getNestedValue_absent context path (pre rest : list string) w :
  split_dot path = pre ++ rest ->
  rest <> [] ->
  (let reached := walk (root context) pre in
   reached = VUndefined \/ reached = VNull \/ typeof reached <> "object") ->
  getNestedValue (root context) path = VUndefined /\
  forall expectedValue, expectedValue <> VUndefined ->
    evaluateCondition
      {| field := path; operator := "eq"; value_ := expectedValue |}
      context w = (Ok false, w) /\
    evaluateCondition
      {| field := path; operator := "neq"; value_ := expectedValue |}
      context w = (Ok true, w).
Proof.
  intros Hsplit Hrest Hreached.
  assert (Hget : getNestedValue (root context) path = VUndefined).
  { unfold getNestedValue. rewrite Hsplit, walk_app.
    now apply walk_stuck. }
  split; [exact Hget|].
  intros expectedValue Hexp. unfold evaluateCondition. simpl.
  rewrite Hget, (strictEquals_undefined _ Hexp). split; reflexivity.
Qed.

(** C6, as the code has it.  For the operator contains: when the resolved
    value and the expected value are both strings the condition holds iff
    the expected string occurs in the resolved one; when the resolved value
    is an array it holds iff some element is the expected value under
    SameValueZero (equal primitives, NaN included, or the very same array,
    object or function), which for a scalar expected value is structural
    equality; in every other case it is false. *)
Theorem evaluateCondition_contains condition context w :
  operator condition = "contains" ->
  exists b,
    evaluateCondition condition context w = (Ok b, w) /\
    match getNestedValue (root context) (field condition), value_ condition with
    | VStr actual, VStr expected =>
        b = true <-> Spec.substring_of expected actual
    | VArr _ items, expected =>
        (b = true <->
         exists y, In y items /\ sameValueZero y expected = true) /\
        (Spec.scalar expected = true ->
         (b = true <->
          exists y, In y items /\ Spec.structurally_equal y expected = true))
    | _, _ => b = false
    end.
Proof.
  intros Hop. unfold evaluateCondition. rewrite Hop. simpl.
  destruct (getNestedValue _ _) as [| | | | actual | i items | |];
    try (exists false; split; reflexivity).
  - destruct (value_ condition) as [| | | | expected | | |];
      try (exists false; split; reflexivity).
    exists (includes actual expected). split; [reflexivity|apply includes_iff].
  - exists (array_includes items (value_ condition)).
    split; [destruct (value_ condition); reflexivity|].
    assert (Hiff := array_includes_iff items (value_ condition)).
    destruct (value_ condition) eqn:E; (split; [exact Hiff|]); intros Hs;
      try discriminate; rewrite Hiff;
      split; intros (y & Hin & Hy); exists y; (split; [exact Hin|]);
      (rewrite sameValueZero_scalar in * by reflexivity); exact Hy.
Qed.

(** C7. An empty list of conditions evaluates to true in every context;
    a list that is not empty evaluates to true exactly when every one of its
    conditions evaluates to true. *)
Theorem evaluateConditions_and context w :
  evaluateConditions [] context w = (Ok true, w) /\
  forall conditions, conditions <> [] ->
    exists b w',
      evaluateConditions conditions context w = (Ok b, w') /\
      (b = true <->
       Forall (fun c => forall w1, fst (evaluateCondition c context w1) = Ok true)
              conditions).
Proof.
  split; [reflexivity|].
  intros conditions Hne. unfold evaluateConditions.
  destruct conditions as [|c rest]; [now elim Hne|].
  change (Nat.eqb (length (c :: rest)) 0) with false. cbv iota.
  apply every_evaluateCondition.
Qed.

End ConditionEvaluatorFacts.

(** ** The action executor *)

Section ActionExecutorFacts.

Import ActionExecutor.

Variable env : Env.

Lemma executeNotify_returns params context w :
  exists result w', executeNotify env params context w = (Ok result, w').
Proof.
  unfold executeNotify, try_catch, bind, ask, call, Notification_new, ret.
  cbn. repeat step; eauto.
Qed.

Lemma executeStartTimer_returns params context w :
  exists result w', executeStartTimer env params context w = (Ok result, w').
Proof.
  unfold executeStartTimer, try_catch, bind, call, ret.
  cbn. repeat step; eauto.
Qed.

(** Every failure of an action is a result, never an exception. *)
Lemma executeAction_returns action context w :
  exists result w', executeAction env action context w = (Ok result, w').
Proof.
  unfold executeAction.
  destruct (String.eqb (type_ action) "NOTIFY");
    [apply executeNotify_returns|].
  destruct (String.eqb (type_ action) "LOG_MESSAGE");
    [eexists; eexists; reflexivity|].
  destruct (String.eqb (type_ action) "START_TIMER");
    [apply executeStartTimer_returns|].
  destruct (String.eqb (type_ action) "TRIGGER_BREAK");
    eexists; eexists; reflexivity.
Qed.

Lemma succeed_in_order_length context actions w results w' :
  Spec.succeed_in_order env context actions w results w' ->
  length results = length actions /\
  Forall (fun r => success r = true) results.
Proof.
  induction 1 as [|? ? ? ? ? ? ? ? ? ? [IHl IHs]]; simpl; split; auto.
Qed.

Lemma executeActions_loop_spec context actions :
  forall results0 w,
  exists results w',
    executeActions_loop env actions context results0 w
      = (Ok (results0 ++ results), w') /\
    (Spec.succeed_in_order env context actions w results w' \/
     exists before action after successes w1 failure w2,
       actions = before ++ action :: after /\
       Spec.succeed_in_order env context before w successes w1 /\
       executeAction env action context w1 = (Ok failure, w2) /\
       success failure = false /\
       results = successes ++ [failure] /\
       w' = Spec.warned w2 failure).
Proof.
  induction actions as [|action rest IH]; intros results0 w.
  - exists [], w. rewrite app_nil_r. split; [reflexivity|].
    left. constructor.
  - destruct (executeAction_returns action context w) as (result & w1 & Hrun).
    cbn [executeActions_loop]. unfold bind at 1. rewrite Hrun.
    destruct (success result) eqn:Hs; cbn [negb].
    + destruct (IH (results0 ++ [result]) w1) as (results & w' & Hloop & Hcases).
      exists (result :: results), w'. split.
      * rewrite Hloop, <- app_assoc. reflexivity.
      * destruct Hcases as [Hall|Hfail].
        -- left. econstructor; eassumption.
        -- right.
           destruct Hfail as (before & a & after & successes & wa & failure
                              & wb & -> & Hpre & Ha & Hf & -> & ->).
           exists (action :: before), a, after, (result :: successes),
             wa, failure, wb.
           repeat split; auto. econstructor; eassumption.
    + exists [result], (Spec.warned w1 result). split; [reflexivity|].
      right. exists [], action, rest, [], w, result, w1.
      repeat split; auto. constructor.
Qed.

Lemma executeActions_returns actions context w :
  exists results w',
    executeActions env actions context w = (Ok results, w').
Proof.
  destruct (executeActions_loop_spec context actions [] w)
    as (results & w' & Hrun & _).
  exists results, w'. exact Hrun.
Qed.

(** C1. [executeActions] returns a list of results, and one of two things
    happened.  Either every action was executed, in list order, each in the
    world its predecessor left, and every one succeeded: there is one
    successful result per action.  Or the actions before some action were so
    executed and succeeded, that action was executed next and failed, the
    results are those successes followed by that one failure, and the world
    at the end is the one the failing action left, with the warning that
    reports it: no later action was executed. *)
Theorem executeActions_fail_fast actions context w :
  exists results w',
    executeActions env actions context w = (Ok results, w') /\
    ((Spec.succeed_in_order env context actions w results w' /\
      length results = length actions /\
      Forall (fun r => success r = true) results) \/
     exists before action after successes w1 failure w2,
       actions = before ++ action :: after /\
       Spec.succeed_in_order env context before w successes w1 /\
       length successes = length before /\
       Forall (fun r => success r = true) successes /\
       executeAction env action context w1 = (Ok failure, w2) /\
       success failure = false /\
       results = successes ++ [failure] /\
       w' = Spec.warned w2 failure).
Proof.
  destruct (executeActions_loop_spec context actions [] w)
    as (results & w' & Hrun & Hcases).
  exists results, w'. split; [exact Hrun|].
  destruct Hcases as [Hall|Hfail].
  - left. split; [exact Hall|]. eapply succeed_in_order_length; eassumption.
  - right.
    destruct Hfail as (before & a & after & successes & wa & failure & wb
                       & Hact & Hpre & Ha & Hf & Hres & Hw).
    exists before, a, after, successes, wa, failure, wb.
    destruct (succeed_in_order_length _ _ _ _ _ Hpre) as [Hlen Hsucc].
    repeat split; assumption.
Qed.

(** C8. A START_TIMER action whose params have no [activityId] yields the
    failed result with error "activityId gerekli", as a returned value, and
    leaves the world as it was: neither the import of the timer store nor
    [startTimer] is called. *)
Theorem executeAction_start_timer_requires_activity action context w :
  type_ action = "START_TIMER" ->
  prop (params action) "activityId" = VUndefined ->
  executeAction env action context w =
    (Ok {| actionType := "START_TIMER"; success := false;
           error := Some "activityId gerekli"; data := None |}, w).
Proof.
  intros Htype Hid. unfold executeAction, executeStartTimer.
  rewrite Htype, Hid. reflexivity.
Qed.

(** C9, as the code has it.  A TRIGGER_BREAK action always succeeds.  The
    duration it reports is the [duration] parameter when that is truthy and
    300 seconds otherwise: when the parameter is missing, and also when it
    is 0, NaN or another falsy value.  The long-break flag it reports is the
    [isLongBreak] parameter when that is truthy and false otherwise; for a
    boolean parameter that is the parameter itself. *)
Theorem executeAction_trigger_break action context w :
  type_ action = "TRIGGER_BREAK" ->
  exists duration isLongBreak w',
    executeAction env action context w =
      (Ok {| actionType := "TRIGGER_BREAK"; success := true; error := None;
             data := Some [("duration", duration);
                           ("isLongBreak", isLongBreak)] |}, w') /\
    (truthy (prop (params action) "duration") = true ->
     duration = prop (params action) "duration") /\
    (truthy (prop (params action) "duration") = false ->
     duration = VNum 300%float) /\
    (truthy (prop (params action) "isLongBreak") = true ->
     isLongBreak = prop (params action) "isLongBreak") /\
    (truthy (prop (params action) "isLongBreak") = false ->
     isLongBreak = VBool false) /\
    (forall b, prop (params action) "isLongBreak" = VBool b ->
     isLongBreak = VBool b).
Proof.
  intros Htype. unfold executeAction. rewrite Htype. cbn.
  unfold executeTriggerBreak, bind, emit, ret. cbn.
  eexists; eexists; eexists. split; [reflexivity|].
  unfold or_else.
  repeat split.
  - intros ->. reflexivity.
  - intros ->. reflexivity.
  - intros ->. reflexivity.
  - intros ->. reflexivity.
  - intros b ->. destruct b; reflexivity.
Qed.

End ActionExecutorFacts.

(** ** The rule engine *)

Section RuleEngineFacts.

Import RuleEngine.

Section AnyImports.

(** Whatever the evaluator and the executor do, throwing included. *)
Variable evaluateConditions : list RuleCondition -> RuleContext -> M bool.
Variable executeActions :
  list RuleActionConfig -> RuleContext -> M (list ActionResult).

Lemma evaluateAndExecuteRule_returns rule context w :
  exists result w',
    RuleEngine.evaluateAndExecuteRule evaluateConditions executeActions
      rule context w = (Ok result, w') /\
    Spec.result_of rule result.
Proof.
  unfold RuleEngine.evaluateAndExecuteRule, try_block, Spec.result_of.
  destruct (evaluateConditions (conditions rule) context w) as [[[]|e] w1];
    cbn.
  - destruct (executeActions (actions rule) context w1)
      as [[actionResults|e] w2]; cbn.
    + eexists; eexists; split; [reflexivity|].
      repeat step; repeat split.
    + eexists; eexists; split; [reflexivity|]. repeat split.
  - eexists; eexists; split; [reflexivity|]. repeat split.
  - eexists; eexists; split; [reflexivity|]. repeat split.
Qed.

Lemma handleEvent_loop_spec context matchingRules :
  forall results0 w,
  exists results w',
    handleEvent_loop evaluateConditions executeActions matchingRules context
      results0 w = (Ok (results0 ++ results), w') /\
    Forall2 Spec.result_of matchingRules results /\
    Notions.evaluated_in_order evaluateConditions executeActions context
      matchingRules w results w'.
Proof.
  induction matchingRules as [|rule rest IH]; intros results0 w.
  - exists [], w. rewrite app_nil_r.
    split; [reflexivity|]. split; constructor.
  - destruct (evaluateAndExecuteRule_returns rule context w)
      as (result & w1 & Hrun & Hres).
    destruct (IH (results0 ++ [result]) w1)
      as (results & w' & Hloop & Hall & Hord).
    exists (result :: results), w'. split; [|split].
    + cbn [handleEvent_loop]. unfold bind at 1.
      rewrite Hrun, Hloop, <- app_assoc.
      reflexivity.
    + now constructor.
    + econstructor; eassumption.
Qed.

(** C3. [handleEvent] returns.  When no cached rule has the trigger it
    returns the empty list.  Otherwise one context is built from the
    payload and every cached rule whose trigger is the event type is
    evaluated and executed against it, in cache order, each in the world its
    predecessor left and whatever happened to its predecessors: the list
    returned holds exactly the records of these evaluations, one per rule.
    [testRule] returns the record of the evaluation of its rule against the
    context built from its payload.  Every evaluation returns a record of
    its rule, in every world; an exception thrown while the conditions of a
    rule are evaluated, or while its actions are executed, ends in that
    rule's record, whose [error] is the rendering of the thrown value, and
    is reported on the console: nothing is thrown to the caller. *)
Theorem handleEvent_isolates_rules this eventType eventPayload w :
  (exists results w',
     RuleEngine.handleEvent evaluateConditions executeActions
       this eventType eventPayload w = (Ok results, w') /\
     Forall2 Spec.result_of
       (filter (fun rule => String.eqb (trigger rule) eventType)
               (rulesCache this))
       results /\
     match filter (fun rule => String.eqb (trigger rule) eventType)
                  (rulesCache this) with
     | [] => results = [] /\ w' = w
     | matchingRules =>
         exists context w0,
           buildContext this eventPayload w = (Ok context, w0) /\
           payload context = eventPayload /\
           Notions.evaluated_in_order evaluateConditions executeActions
             context matchingRules w0 results w'
     end) /\
  (forall rule mockPayload, exists result w' context w0,
     RuleEngine.testRule evaluateConditions executeActions
       this rule mockPayload w = (Ok result, w') /\
     Spec.result_of rule result /\
     buildContext this mockPayload w = (Ok context, w0) /\
     payload context = mockPayload /\
     RuleEngine.evaluateAndExecuteRule evaluateConditions executeActions
       rule context w0 = (Ok result, w')) /\
  (forall rule context w0, exists result w1,
     RuleEngine.evaluateAndExecuteRule evaluateConditions executeActions
       rule context w0 = (Ok result, w1) /\
     Spec.result_of rule result) /\
  (forall rule context w0 e w1,
     evaluateConditions (conditions rule) context w0 = (Throw e, w1) ->
     RuleEngine.evaluateAndExecuteRule evaluateConditions executeActions
       rule context w0 =
       (Ok {| ruleId := id rule; ruleName := name rule;
              er_trigger := trigger rule; matched := false;
              actionsExecuted := false; er_error := Some (String_ e) |},
        Notions.after_call w1 (ErrorRuleEvaluation e))) /\
  (forall rule context w0 w1 e w2,
     evaluateConditions (conditions rule) context w0 = (Ok true, w1) ->
     executeActions (actions rule) context w1 = (Throw e, w2) ->
     RuleEngine.evaluateAndExecuteRule evaluateConditions executeActions
       rule context w0 =
       (Ok {| ruleId := id rule; ruleName := name rule;
              er_trigger := trigger rule; matched := true;
              actionsExecuted := false; er_error := Some (String_ e) |},
        Notions.after_call w2 (ErrorRuleEvaluation e))).
Proof.
  split; [|split; [|split; [|split]]].
  - unfold RuleEngine.handleEvent.
    destruct (filter (fun rule => String.eqb (trigger rule) eventType)
                     (rulesCache this)) as [|rule rest].
    + exists [], w. split; [reflexivity|]. split; [constructor|].
      split; reflexivity.
    + change (Nat.eqb (length (rule :: rest)) 0) with false. cbv iota.
      unfold bind at 1. cbn [buildContext fresh bind ret fst snd next_ref trace].
      match goal with
      | |- context [handleEvent_loop _ _ _ ?c [] ?w0] =>
          destruct (handleEvent_loop_spec c (rule :: rest) [] w0)
            as (results & w' & Hloop & Hall & Hord)
      end.
      exists results, w'. split; [exact Hloop|]. split; [exact Hall|].
      eexists; eexists. split; [reflexivity|]. split; [reflexivity|].
      exact Hord.
  - intros rule mockPayload.
    unfold RuleEngine.testRule. unfold bind at 1.
    cbn [buildContext fresh bind ret fst snd next_ref trace].
    match goal with
    | |- context [RuleEngine.evaluateAndExecuteRule _ _ rule ?c ?w0] =>
        destruct (evaluateAndExecuteRule_returns rule c w0)
          as (result & w' & Hrun & Hres)
    end.
    exists result, w'. eexists; eexists.
    split; [exact Hrun|]. split; [exact Hres|].
    split; [reflexivity|]. split; [reflexivity|exact Hrun].
  - intros rule context w0. apply evaluateAndExecuteRule_returns.
  - intros rule context w0 e w1 Hthrow.
    unfold RuleEngine.evaluateAndExecuteRule, try_block.
    rewrite Hthrow. reflexivity.
  - intros rule context w0 w1 e w2 Hmatch Hthrow.
    unfold RuleEngine.evaluateAndExecuteRule, try_block.
    rewrite Hmatch, Hthrow. reflexivity.
Qed.

End AnyImports.

(** *** The engine with its imports bound *)

Variable env : Env.

Lemma evaluateConditions_returns conditions context w :
  exists b w',
    ConditionEvaluator.evaluateConditions conditions context w = (Ok b, w').
Proof.
  destruct conditions as [|c rest].
  - exists true, w. reflexivity.
  - destruct (every_evaluateCondition (c :: rest) context w)
      as (b & w' & Hrun & _).
    exists b, w'. exact Hrun.
Qed.

(** When every result is a success there is no first failure. *)
Lemma first_failure_none results :
  forallb success results = true -> Spec.first_failure results = None.
Proof.
  unfold Spec.first_failure.
  induction results as [|r rest IH]; simpl; [reflexivity|].
  destruct (success r); simpl; [exact IH|discriminate].
Qed.

(** C2, as the code has it.  The conditions of the rule evaluate to a
    boolean.  If it is false the record returned has [matched] false,
    [actionsExecuted] false and no error, and the world is the one the
    evaluation of the conditions left: no action is executed.  If it is true
    the actions are executed by [executeActions] and the record returned has
    [matched] true and [actionsExecuted] true exactly when every result of
    that execution is a success; its [error] is the error message of the
    first failed result when that message is a non-empty string, and is not
    set otherwise. *)
Theorem evaluateAndExecuteRule_spec rule context w :
  exists conditionsMatch w1,
    ConditionEvaluator.evaluateConditions (conditions rule) context w
      = (Ok conditionsMatch, w1) /\
    if conditionsMatch then
      exists actionResults w2 result w3,
        ActionExecutor.executeActions env (actions rule) context w1
          = (Ok actionResults, w2) /\
        Program.evaluateAndExecuteRule env rule context w = (Ok result, w3) /\
        Spec.result_of rule result /\
        matched result = true /\
        actionsExecuted result = forallb success actionResults /\
        er_error result =
          match Spec.first_failure actionResults with
          | Some failedAction =>
              match error failedAction with
              | Some message =>
                  if String.eqb message "" then None else Some message
              | None => None
              end
          | None => None
          end
    else
      Program.evaluateAndExecuteRule env rule context w
        = (Ok (Spec.unmatched rule), w1).
Proof.
  destruct (evaluateConditions_returns (conditions rule) context w)
    as (b & w1 & Hcond).
  exists b, w1. split; [exact Hcond|].
  unfold Program.evaluateAndExecuteRule, RuleEngine.evaluateAndExecuteRule,
    try_block.
  rewrite Hcond. destruct b; [|reflexivity].
  destruct (executeActions_returns env (actions rule) context w1)
    as (actionResults & w2 & Hrun).
  rewrite Hrun. cbn.
  exists actionResults, w2. eexists; eexists.
  split; [reflexivity|]. split; [reflexivity|].
  unfold Spec.result_of.
  destruct (forallb success actionResults) eqn:Hall; cbn.
  - rewrite (first_failure_none _ Hall). repeat split.
  - fold (Spec.first_failure actionResults).
    destruct (Spec.first_failure actionResults) as [failedAction|];
      [|repeat split].
    destruct (error failedAction) as [message|]; [|repeat split].
    destruct (String.eqb message ""); repeat split.
Qed.

(** C10. A rule whose conditions hold and whose list of actions is empty
    yields [matched] true, [actionsExecuted] true and no error, from
    [evaluateAndExecuteRule] and from [testRule] alike. *)
Theorem evaluateAndExecuteRule_no_actions rule context w w1 :
  actions rule = [] ->
  ConditionEvaluator.evaluateConditions (conditions rule) context w
    = (Ok true, w1) ->
  (exists w',
     Program.evaluateAndExecuteRule env rule context w =
       (Ok {| ruleId := id rule; ruleName := name rule;
              er_trigger := trigger rule; matched := true;
              actionsExecuted := true; er_error := None |}, w')) /\
  (forall this mockPayload w0,
     buildContext this mockPayload w0 = (Ok context, w) ->
     exists w',
       Program.testRule env this rule mockPayload w0 =
         (Ok {| ruleId := id rule; ruleName := name rule;
                er_trigger := trigger rule; matched := true;
                actionsExecuted := true; er_error := None |}, w')).
Proof.
  intros Hactions Hcond.
  assert (Hrule : exists w',
     Program.evaluateAndExecuteRule env rule context w =
       (Ok {| ruleId := id rule; ruleName := name rule;
              er_trigger := trigger rule; matched := true;
              actionsExecuted := true; er_error := None |}, w')).
  { unfold Program.evaluateAndExecuteRule, RuleEngine.evaluateAndExecuteRule,
      try_block.
    rewrite Hcond, Hactions. cbn. eexists. reflexivity. }
  split; [exact Hrule|].
  intros this mockPayload w0 Hbuild.
  unfold Program.testRule, RuleEngine.testRule. unfold bind at 1.
  rewrite Hbuild. exact Hrule.
Qed.

End RuleEngineFacts.

(** ** The properties at concrete inputs *)

Section Instances.

Import ConditionEvaluator ActionExecutor Samples.

(** A comparison of a string with a number is false. *)
Lemma evaluateCondition_numeric_total_witness :
  evaluateCondition
    {| field := "payload.name"; operator := "gt"; value_ := VNum 5%float |}
    (createMockContext (VObj 7 [("name", VStr "my-activity")])) start
  = (Ok false, start).
Proof.
  apply (proj2 (evaluateCondition_numeric_total _ _ start)).
  - simpl. auto.
  - left. cbn. discriminate.
Defined.

(** The path of the evaluator's test suite, on an empty payload. *)
Lemma getNestedValue_absent_witness :
  getNestedValue (root (createMockContext (VObj 7 [])))
    "payload.nonexistent.deep.path" = VUndefined /\
  evaluateCondition
    {| field := "payload.nonexistent.deep.path"; operator := "eq";
       value_ := VStr "test" |}
    (createMockContext (VObj 7 [])) start = (Ok false, start) /\
  evaluateCondition
    {| field := "payload.nonexistent.deep.path"; operator := "neq";
       value_ := VStr "test" |}
    (createMockContext (VObj 7 [])) start = (Ok true, start).
Proof.
  destruct (getNestedValue_absent (createMockContext (VObj 7 []))
              "payload.nonexistent.deep.path"
              ["payload"; "nonexistent"] ["deep"; "path"] start eq_refl)
    as [Habsent Hcond].
  - discriminate.
  - left. reflexivity.
  - split; [exact Habsent|]. apply Hcond. discriminate.
Defined.

(** A tag among the tags of the payload. *)
Lemma evaluateCondition_contains_witness :
  exists b,
    evaluateCondition
      {| field := "payload.tags"; operator := "contains";
         value_ := VStr "urgent" |}
      (createMockContext
         (VObj 7 [("tags", VArr 9 [VStr "work"; VStr "urgent"])])) start
    = (Ok b, start) /\
    (b = true <->
     exists y, In y [VStr "work"; VStr "urgent"] /\
               Spec.structurally_equal y (VStr "urgent") = true).
Proof.
  destruct (evaluateCondition_contains
              {| field := "payload.tags"; operator := "contains";
                 value_ := VStr "urgent" |}
              (createMockContext
                 (VObj 7 [("tags", VArr 9 [VStr "work"; VStr "urgent"])]))
              start eq_refl) as (b & Hrun & Hspec).
  exists b. split; [exact Hrun|].
  cbn in Hspec. apply Hspec. reflexivity.
Defined.

(** The two conditions of the evaluator's test suite. *)
Lemma evaluateConditions_and_witness :
  exists b w',
    evaluateConditions
      [{| field := "payload.status"; operator := "eq";
          value_ := VStr "active" |};
       {| field := "payload.count"; operator := "gte";
          value_ := VNum 5%float |}]
      (createMockContext
         (VObj 7 [("status", VStr "active"); ("count", VNum 10%float)]))
      start = (Ok b, w').
Proof.
  destruct (proj2 (evaluateConditions_and
                     (createMockContext
                        (VObj 7 [("status", VStr "active");
                                 ("count", VNum 10%float)])) start)
              [{| field := "payload.status"; operator := "eq";
                  value_ := VStr "active" |};
               {| field := "payload.count"; operator := "gte";
                  value_ := VNum 5%float |}])
    as (b & w' & Hrun & _).
  - discriminate.
  - exists b, w'. exact Hrun.
Defined.

(** Scenario 3 of the specification. *)
Lemma executeAction_start_timer_requires_activity_witness :
  executeAction browser start_timer_without_activity
    (createMockContext (VObj 7 [])) start
  = (Ok {| actionType := "START_TIMER"; success := false;
           error := Some "activityId gerekli"; data := None |}, start).
Proof.
  apply executeAction_start_timer_requires_activity; reflexivity.
Defined.

(** A break with no parameters: five minutes, not a long break. *)
Lemma executeAction_trigger_break_witness :
  exists duration isLongBreak w',
    executeAction browser (trigger_break []) (createMockContext (VObj 7 []))
      start
    = (Ok {| actionType := "TRIGGER_BREAK"; success := true; error := None;
             data := Some [("duration", duration);
                           ("isLongBreak", isLongBreak)] |}, w') /\
    duration = VNum 300%float /\ isLongBreak = VBool false.
Proof.
  destruct (executeAction_trigger_break browser (trigger_break [])
              (createMockContext (VObj 7 [])) start eq_refl)
    as (duration & isLongBreak & w' & Hrun & _ & Hd & _ & Hl & _).
  exists duration, isLongBreak, w'.
  split; [exact Hrun|]. split; [apply Hd|apply Hl]; reflexivity.
Defined.

(** An executor that throws on every rule: the two rules triggered by the
    event are both evaluated, and the record of each carries the error. *)
Lemma handleEvent_isolates_rules_witness :
  (exists results w' context w0,
     RuleEngine.handleEvent evaluateConditions (throwing_executor "boom")
       engine "POMODORO_COMPLETED" (VObj 7 []) start = (Ok results, w') /\
     Forall2 Spec.result_of [failing_rule; succeeding_rule] results /\
     RuleEngine.buildContext engine (VObj 7 []) start = (Ok context, w0) /\
     Notions.evaluated_in_order evaluateConditions (throwing_executor "boom")
       context [failing_rule; succeeding_rule] w0 results w') /\
  RuleEngine.evaluateAndExecuteRule evaluateConditions
    (throwing_executor "boom") failing_rule (createMockContext (VObj 7 []))
    start
  = (Ok {| ruleId := "r1"; ruleName := "fails";
           er_trigger := "POMODORO_COMPLETED"; matched := true;
           actionsExecuted := false; er_error := Some "boom" |},
     Notions.after_call start (ErrorRuleEvaluation (Thrown "boom"))).
Proof.
  destruct (handleEvent_isolates_rules evaluateConditions
              (throwing_executor "boom") engine "POMODORO_COMPLETED"
              (VObj 7 []) start) as (Hall & _ & _ & _ & Hthrow).
  split.
  - destruct Hall as (results & w' & Hrun & Hrecords & Hord).
    cbn in Hord. destruct Hord as (context & w0 & Hbuild & _ & Hord).
    exists results, w', context, w0.
    split; [exact Hrun|]. split; [exact Hrecords|].
    split; [exact Hbuild|exact Hord].
  - apply (Hthrow failing_rule (createMockContext (VObj 7 [])) start start
             (Thrown "boom") start); reflexivity.
Defined.

(** A rule with no conditions and no actions. *)
Lemma evaluateAndExecuteRule_no_actions_witness :
  exists w',
    Program.evaluateAndExecuteRule browser no_actions_rule
      (createMockContext (VObj 7 [])) start
    = (Ok {| ruleId := "r3"; ruleName := "records";
             er_trigger := "GOAL_REACHED"; matched := true;
             actionsExecuted := true; er_error := None |}, w').
Proof.
  apply (proj1 (evaluateAndExecuteRule_no_actions browser no_actions_rule
                  (createMockContext (VObj 7 [])) start start
                  eq_refl eq_refl)).
Defined.

(** C2 as stated fails when the first failed action carries an empty error
    message: a timer store that rejects with the empty string makes
    START_TIMER fail with error [""], and the record of the rule has no
    error at all. *)
Lemma evaluateAndExecuteRule_drops_empty_error :
  exists failedAction w2 result w3,
    executeActions (timer_rejects "") (actions timer_rule)
      (createMockContext (VObj 7 [])) start = (Ok [failedAction], w2) /\
    success failedAction = false /\
    error failedAction = Some "" /\
    Program.evaluateAndExecuteRule (timer_rejects "") timer_rule
      (createMockContext (VObj 7 [])) start = (Ok result, w3) /\
    actionsExecuted result = false /\
    er_error result = None /\
    er_error result <> error failedAction.
Proof.
  exists {| actionType := "START_TIMER"; success := false;
            error := Some ""; data := None |}.
  do 3 eexists.
  split; [cbv; reflexivity|]. split; [reflexivity|]. split; [reflexivity|].
  split; [cbv; reflexivity|]. split; [reflexivity|]. split; [reflexivity|].
  discriminate.
Qed.

(** C6 as stated fails on an element that is an array: the payload's list
    holds an array [[1]], the expected value is another array [[1]],
    structurally equal to it, and the condition is false. *)
Lemma evaluateCondition_contains_not_structural :
  Spec.structurally_equal (VArr 12 [VNum 1%float]) (VArr 13 [VNum 1%float])
    = true /\
  In (VArr 12 [VNum 1%float]) [VArr 12 [VNum 1%float]] /\
  evaluateCondition
    {| field := "payload.groups"; operator := "contains";
       value_ := VArr 13 [VNum 1%float] |}
    (createMockContext (VObj 7 [("groups", VArr 9 [VArr 12 [VNum 1%float]])]))
    start = (Ok false, start).
Proof.
  split; [reflexivity|]. split; [now left|reflexivity].
Qed.

(** C9 as stated fails on a duration of 0: the parameter is given and the
    duration reported is 300. *)
Lemma executeAction_trigger_break_zero :
  prop (params (trigger_break [("duration", VNum 0%float)])) "duration"
    = VNum 0%float /\
  fst (executeAction browser (trigger_break [("duration", VNum 0%float)])
         (createMockContext (VObj 7 [])) start)
  = Ok {| actionType := "TRIGGER_BREAK"; success := true; error := None;
          data := Some [("duration", VNum 300%float);
                        ("isLongBreak", VBool false)] |} /\
  VNum 300%float <> VNum 0%float.
Proof.
  split; [reflexivity|]. split; [reflexivity|].
  intros H.
  apply (f_equal (fun v => strictEquals v (VNum 0%float))) in H.
  vm_compute in H. discriminate.
Qed.

(** Scenarios 1 and 2 of the specification: the session rule on a session
    of 2000 seconds, then of 1000 seconds. *)
Example scenario_session_long :
  fst (Program.testRule browser engine session_to_habit
         (session 2000%float) start)
  = Ok {| ruleId := "session-to-habit"; ruleName := name session_to_habit;
          er_trigger := "SESSION_CREATED"; matched := true;
          actionsExecuted := true; er_error := None |}.
Proof. reflexivity. Qed.

Example scenario_session_short :
  fst (Program.testRule browser engine session_to_habit
         (session 1000%float) start)
  = Ok {| ruleId := "session-to-habit"; ruleName := name session_to_habit;
          er_trigger := "SESSION_CREATED"; matched := false;
          actionsExecuted := false; er_error := None |}.
Proof. reflexivity. Qed.

(** Scenario 4: a failing rule and a succeeding rule on the same event. *)
Example scenario_two_rules :
  fst (Program.handleEvent browser engine "POMODORO_COMPLETED" (VObj 7 [])
         start)
  = Ok [{| ruleId := "r1"; ruleName := "fails";
           er_trigger := "POMODORO_COMPLETED"; matched := true;
           actionsExecuted := false;
           er_error := Some "activityId gerekli" |};
        {| ruleId := "r2"; ruleName := "succeeds";
           er_trigger := "POMODORO_COMPLETED"; matched := true;
           actionsExecuted := true; er_error := None |}].
Proof. reflexivity. Qed.

(** The fail-fast example of the specification: success, failure, success. *)
Example scenario_fail_fast :
  exists first second,
    fst (executeActions browser
           [log "A"; start_timer_without_activity; log "C"]
           (createMockContext (VObj 7 [])) start) = Ok [first; second] /\
    success first = true /\ success second = false /\
    trace (snd (executeActions browser
                  [log "A"; start_timer_without_activity; log "C"]
                  (createMockContext (VObj 7 [])) start))
    = [LogMessage (VStr "A") (VObj 7 []); WarnActionFailed second].
Proof. do 2 eexists. split; [cbv; reflexivity|]. repeat split. Qed.

End Instances.

(** * Further properties of the code *)

(** ** Comparison of numbers *)

Section NumberFacts.

Lemma SFcompare_refl f : f <> S754_nan -> SFcompare f f = Some Eq.
Proof.
  destruct f as [s| s| |s m e]; intros H; try reflexivity.
  - destruct s; reflexivity.
  - now elim H.
  - cbn. rewrite Z.compare_refl, Pos.compare_cont_refl. destruct s; reflexivity.
Qed.

Lemma SFcompare_antisym f g :
  SFcompare g f = option_map CompOpp (SFcompare f g).
Proof.
  destruct f as [s| s| |s m e], g as [t| t| |t n e']; try reflexivity;
    try (destruct s; reflexivity); try (destruct t; reflexivity);
    try (destruct s, t; reflexivity).
  cbn. rewrite (Z.compare_antisym e e').
  destruct s, t; cbn; try reflexivity;
    destruct (Z.compare e e'); cbn; try reflexivity;
    rewrite ?Pos.compare_cont_antisym; reflexivity.
Qed.

(** [x <= y] is [x < y || x == y]. *)
Lemma leb_ltb_eqb x y :
  PrimFloat.leb x y = PrimFloat.ltb x y || PrimFloat.eqb x y.
Proof.
  rewrite leb_spec, ltb_spec, eqb_spec. unfold SFleb, SFltb, SFeqb.
  destruct (SFcompare _ _) as [[]|]; reflexivity.
Qed.

Lemma float_eqb_sym x y : PrimFloat.eqb x y = PrimFloat.eqb y x.
Proof.
  rewrite !eqb_spec. unfold SFeqb.
  rewrite (SFcompare_antisym (Prim2SF y) (Prim2SF x)).
  destruct (SFcompare _ _) as [[]|]; reflexivity.
Qed.

(** A number that differs from itself compares false with every number. *)
Lemma isNaN_compare x y :
  isNaN x = true ->
  PrimFloat.eqb x y = false /\ PrimFloat.eqb y x = false /\
  PrimFloat.ltb x y = false /\ PrimFloat.ltb y x = false /\
  PrimFloat.leb x y = false /\ PrimFloat.leb y x = false.
Proof.
  unfold isNaN. intros H. apply negb_true_iff in H.
  assert (Hnan : Prim2SF x = S754_nan).
  { rewrite eqb_spec in H. unfold SFeqb in H.
    destruct (Prim2SF x) eqn:E; try reflexivity;
      rewrite SFcompare_refl in H by discriminate; discriminate. }
  rewrite !eqb_spec, !ltb_spec, !leb_spec.
  unfold SFeqb, SFltb, SFleb. rewrite Hnan.
  repeat split; try reflexivity; destruct (Prim2SF y); reflexivity.
Qed.

(** Between two numbers that are not NaN, [x < y] is the negation of
    [y <= x]. *)
Lemma ltb_not_leb x y :
  isNaN x = false -> isNaN y = false ->
  PrimFloat.ltb x y = negb (PrimFloat.leb y x).
Proof.
  unfold isNaN. intros Hx Hy.
  apply negb_false_iff in Hx. apply negb_false_iff in Hy.
  rewrite eqb_spec in Hx, Hy. rewrite ltb_spec, leb_spec.
  unfold SFeqb, SFltb, SFleb in *.
  rewrite (SFcompare_antisym (Prim2SF x) (Prim2SF y)).
  destruct (Prim2SF x) as [s| s| |s m e]; try discriminate;
    destruct (Prim2SF y) as [t| t| |t n e']; try discriminate;
    match goal with
    | |- context [SFcompare ?f ?g] =>
        destruct (SFcompare f g) as [[]|] eqn:E; try reflexivity
    end;
    cbn in E; discriminate.
Qed.

End NumberFacts.

(** ** More on the condition evaluator *)

Section MoreConditionEvaluatorFacts.

Import ConditionEvaluator.

Lemma split_dot_app (p q : string) :
  split_dot (String.append p (String "." q)) = split_dot p ++ split_dot q.
Proof.
  induction p as [|c p IH]; simpl.
  - reflexivity.
  - destruct (Ascii.eqb c "."); [now rewrite IH|].
    rewrite IH.
    destruct (split_dot p) as [|seg segs] eqn:E;
      [now apply split_dot_nonempty in E | reflexivity].
Qed.

Lemma getNestedValue_app obj (p q : string) :
  getNestedValue obj (String.append p (String "." q))
  = getNestedValue (getNestedValue obj p) q.
Proof. unfold getNestedValue. now rewrite split_dot_app, walk_app. Qed.

Lemma every_stops (f : RuleCondition -> M bool) before c after :
  (forall w, exists w', f c w = (Ok false, w')) ->
  forall w, every (before ++ c :: after) f w = every (before ++ [c]) f w.
Proof.
  intros Hc. induction before as [|a before IH]; intros w; simpl; unfold bind.
  - destruct (Hc w) as [w' ->]. reflexivity.
  - destruct (f a w) as [[[]|e] w1]; [apply IH|reflexivity|reflexivity].
Qed.

Lemma strictEquals_number a e : strictEquals (VNum a) (VNum e) = PrimFloat.eqb a e.
Proof. reflexivity. Qed.

(** X1. On a field that resolves to a number, against an expected number:
    neq is the negation of eq, gte is gt-or-eq and lte is lt-or-eq; when
    neither number is NaN, gt is the negation of lte and lt the negation of
    gte; when either is NaN, every operator but neq is false. *)
Theorem evaluateCondition_number_order field_ context w a e :
  getNestedValue (root context) field_ = VNum a ->
  exists gt gte lt lte eq neq,
    evaluateCondition {| field := field_; operator := "gt"; value_ := VNum e |}
      context w = (Ok gt, w) /\
    evaluateCondition {| field := field_; operator := "gte"; value_ := VNum e |}
      context w = (Ok gte, w) /\
    evaluateCondition {| field := field_; operator := "lt"; value_ := VNum e |}
      context w = (Ok lt, w) /\
    evaluateCondition {| field := field_; operator := "lte"; value_ := VNum e |}
      context w = (Ok lte, w) /\
    evaluateCondition {| field := field_; operator := "eq"; value_ := VNum e |}
      context w = (Ok eq, w) /\
    evaluateCondition {| field := field_; operator := "neq"; value_ := VNum e |}
      context w = (Ok neq, w) /\
    neq = negb eq /\ gte = gt || eq /\ lte = lt || eq /\
    (isNaN a = false -> isNaN e = false ->
     gt = negb lte /\ lt = negb gte) /\
    (isNaN a = true \/ isNaN e = true ->
     gt = false /\ gte = false /\ lt = false /\ lte = false /\
     eq = false /\ neq = true).
Proof.
  intros Hfield. unfold evaluateCondition.
  cbn [field operator value_]. rewrite Hfield. cbn.
  do 6 eexists. do 6 (split; [reflexivity|]).
  split; [reflexivity|].
  split; [rewrite leb_ltb_eqb, (float_eqb_sym a e); reflexivity|].
  split; [apply leb_ltb_eqb|].
  split.
  - intros Ha He. split; now apply ltb_not_leb.
  - intros [Hn|Hn].
    + destruct (isNaN_compare a e Hn) as (H1 & H2 & H3 & H4 & H5 & H6).
      rewrite ?H1, ?H2, ?H3, ?H4, ?H5, ?H6. repeat split.
    + destruct (isNaN_compare e a Hn) as (H1 & H2 & H3 & H4 & H5 & H6).
      rewrite ?H1, ?H2, ?H3, ?H4, ?H5, ?H6. repeat split.
Qed.

(** X2. With one of the seven operators the evaluator knows, a condition is
    evaluated without any effect on the world.  With any other operator the
    condition is false and one warning naming the operator is written. *)
Theorem evaluateCondition_effect condition context w :
  (In (operator condition)
      ["eq"; "neq"; "gt"; "gte"; "lt"; "lte"; "contains"] ->
   exists b, evaluateCondition condition context w = (Ok b, w)) /\
  (~ In (operator condition)
        ["eq"; "neq"; "gt"; "gte"; "lt"; "lte"; "contains"] ->
   evaluateCondition condition context w =
     (Ok false, {| trace := trace w ++ [WarnUnknownOperator (operator condition)];
                   next_ref := next_ref w |})).
Proof.
  split.
  - intros Hop. unfold evaluateCondition. simpl in Hop.
    destruct Hop as [<-|[<-|[<-|[<-|[<-|[<-|[<-|[]]]]]]]]; cbn;
      try (eexists; reflexivity).
    destruct (getNestedValue _ _), (value_ condition); eexists; reflexivity.
  - intros Hop. unfold evaluateCondition.
    repeat match goal with
    | |- context [String.eqb (operator condition) ?s] =>
        destruct (String.eqb_spec (operator condition) s) as [E|_];
        [elim Hop; rewrite E; simpl; tauto|]
    end.
    reflexivity.
Qed.

(** X3. Resolving a path [p.q] is resolving [p], then resolving [q] from
    the value reached. *)
Theorem getNestedValue_compose obj (p q : string) :
  getNestedValue obj (String.append p (String "." q))
  = getNestedValue (getNestedValue obj p) q.
Proof. apply getNestedValue_app. Qed.

(** X4. The payload is reachable as [payload] and as [context.payload]:
    a condition on [context.payload.q] evaluates as the same condition on
    [payload.q]. *)
Theorem evaluateCondition_payload_alias q operator_ expected context w :
  evaluateCondition
    {| field := String.append "context.payload" (String "." q);
       operator := operator_; value_ := expected |} context w
  = evaluateCondition
      {| field := String.append "payload" (String "." q);
         operator := operator_; value_ := expected |} context w.
Proof.
  unfold evaluateCondition.
  cbn [field operator value_].
  rewrite (getNestedValue_app (root context) "payload" q).
  change (String.append "context.payload" (String "." q))
    with (String.append "context"
            (String "." (String.append "payload" (String "." q)))).
  rewrite (getNestedValue_app (root context) "context").
  rewrite (getNestedValue_app _ "payload" q).
  reflexivity.
Qed.

(** X5. The conditions after the first one that is false are not evaluated:
    the list evaluates as the list cut after that condition, result and
    world alike. *)
Theorem evaluateConditions_short_circuit before c after context w :
  (forall w1, fst (evaluateCondition c context w1) = Ok false) ->
  evaluateConditions (before ++ c :: after) context w
  = evaluateConditions (before ++ [c]) context w.
Proof.
  intros Hc. unfold evaluateConditions.
  replace (Nat.eqb (length (before ++ c :: after)) 0) with false
    by (destruct before; reflexivity).
  replace (Nat.eqb (length (before ++ [c])) 0) with false
    by (destruct before; reflexivity).
  apply every_stops. intros w1.
  destruct (evaluateCondition_returns c context) as [b Hb].
  destruct (Hb w1) as [w' Hrun]. specialize (Hc w1).
  rewrite Hrun in Hc. injection Hc as ->. now exists w'.
Qed.

End MoreConditionEvaluatorFacts.

(** ** More on the action executor *)

Section MoreActionExecutorFacts.

Import ActionExecutor Notions.

Variable env : Env.

Lemma executeNotify_coherent params context w :
  exists result w',
    executeNotify env params context w = (Ok result, w') /\
    coherent "NOTIFY" result.
Proof.
  unfold executeNotify, try_catch, bind, ask, call, Notification_new, ret.
  cbn. repeat step_inner; conclude.
Qed.

Lemma executeStartTimer_coherent params context w :
  exists result w',
    executeStartTimer env params context w = (Ok result, w') /\
    coherent "START_TIMER" result.
Proof.
  unfold executeStartTimer, try_catch, bind, call, ret.
  cbn. repeat step_inner; conclude.
Qed.

(** X6. Whatever the action and whatever the outside answers,
    [executeAction] returns a result that carries the type of the action
    and that has an error message exactly when it is a failure. *)
Theorem executeAction_coherent action context w :
  exists result w',
    executeAction env action context w = (Ok result, w') /\
    coherent (type_ action) result.
Proof.
  unfold executeAction.
  destruct (String.eqb_spec (type_ action) "NOTIFY") as [->|_];
    [apply executeNotify_coherent|].
  destruct (String.eqb_spec (type_ action) "LOG_MESSAGE") as [->|_];
    [conclude|].
  destruct (String.eqb_spec (type_ action) "START_TIMER") as [->|_];
    [apply executeStartTimer_coherent|].
  destruct (String.eqb_spec (type_ action) "TRIGGER_BREAK") as [->|_];
    conclude.
Qed.

(** X7. An action whose type is none of the four the executor knows fails
    with the message that names the type, and nothing is called. *)
Theorem executeAction_unknown_type action context w :
  ~ In (type_ action) ["NOTIFY"; "LOG_MESSAGE"; "START_TIMER"; "TRIGGER_BREAK"] ->
  executeAction env action context w =
    (Ok (failure (type_ action)
           (String.append "Bilinmeyen aksiyon türü: " (type_ action))), w).
Proof.
  intros Htype. unfold executeAction.
  repeat match goal with
  | |- context [String.eqb (type_ action) ?s] =>
      destruct (String.eqb_spec (type_ action) s) as [E|_];
      [elim Htype; rewrite E; simpl; tauto|]
  end.
  reflexivity.
Qed.

(** X8. START_TIMER rejects every falsy [activityId], the empty string,
    [null], [0] and [false] as well as a missing one, before anything is
    imported or called. *)
Theorem executeAction_start_timer_falsy_activity action context w :
  type_ action = "START_TIMER" ->
  truthy (prop (params action) "activityId") = false ->
  executeAction env action context w =
    (Ok (failure "START_TIMER" "activityId gerekli"), w).
Proof.
  intros Htype Hid. unfold executeAction, executeStartTimer.
  rewrite Htype, Hid. reflexivity.
Qed.

(** X9. START_TIMER with a truthy [activityId] imports the timer store and
    then, only if the import succeeded, calls [startTimer] once with that
    id and the mode 'normal'.  The action succeeds exactly when both
    answered, and then reports the timer id the store returned; otherwise
    it fails with the rendering of what was thrown. *)
Theorem executeAction_start_timer_protocol action context w :
  type_ action = "START_TIMER" ->
  truthy (prop (params action) "activityId") = true ->
  let activityId := prop (params action) "activityId" in
  let imported := after_call w ImportTimerStore in
  let started := after_call imported (StartTimer activityId "normal") in
  match import_timer_store env w with
  | Throw e =>
      executeAction env action context w
      = (Ok (failure "START_TIMER" (String_ e)), imported)
  | Ok _ =>
      match start_timer env imported activityId "normal" with
      | Throw e =>
          executeAction env action context w
          = (Ok (failure "START_TIMER" (String_ e)), started)
      | Ok timerId =>
          executeAction env action context w
          = (Ok {| actionType := "START_TIMER"; success := true;
                   error := None; data := Some [("timerId", timerId)] |},
             started)
      end
  end.
Proof.
  intros Htype Hid. cbv zeta.
  unfold executeAction, executeStartTimer. rewrite Htype, Hid. cbn.
  unfold try_catch, bind, call, ret, after_call. cbn.
  destruct (import_timer_store env w) as [[]|e]; [|reflexivity].
  destruct (start_timer env _ _ _) as [timerId|e]; reflexivity.
Qed.

(** X10. When the browser has no Notification API, or when the permission
    is denied, NOTIFY fails with "Bildirim izni verilmedi" without asking
    for the permission and without showing anything. *)
Theorem executeAction_notify_refused action context w :
  type_ action = "NOTIFY" ->
  notification_in_window env w = Ok false \/
  (notification_in_window env w = Ok true /\
   notification_permission env w = Ok "denied") ->
  executeAction env action context w =
    (Ok (failure "NOTIFY" "Bildirim izni verilmedi"), w).
Proof.
  intros Htype Hno. unfold executeAction. rewrite Htype. cbn.
  unfold executeNotify, try_catch, bind, ask, ret.
  destruct Hno as [H1|[H1 H2]];
    cbn; rewrite H1; cbn; rewrite ?H2; cbn; rewrite ?H2; reflexivity.
Qed.

(** X11. When NOTIFY succeeds a notification was shown, as the last thing
    the action did, with the title and the body of the parameters or their
    defaults; it was preceded by a permission prompt exactly when the
    permission was neither granted nor denied, and the prompt was then
    answered 'granted'. *)
Theorem executeAction_notify_success action context w result w' :
  type_ action = "NOTIFY" ->
  executeAction env action context w = (Ok result, w') ->
  success result = true ->
  let title := or_else (prop (params action) "title")
                       (VStr "LifeFlow Bildirimi") in
  let body := or_else (prop (params action) "body") (VStr "") in
  (notification_permission env w = Ok "granted" /\
   w' = after_call w (NewNotification title body)) \/
  (exists permission,
     notification_permission env w = Ok permission /\
     permission <> "granted" /\ permission <> "denied" /\
     request_permission env w = Ok "granted" /\
     w' = after_call (after_call w RequestPermission)
            (NewNotification title body)).
Proof.
  intros Htype Hrun Hsuccess. cbv zeta.
  unfold executeAction in Hrun. rewrite Htype in Hrun. cbn in Hrun.
  unfold executeNotify, try_catch, bind, ask, call, Notification_new, ret
    in Hrun.
  destruct (notification_in_window env w) as [[|]|e0]; cbn in Hrun;
    [ | failed_run Hrun Hsuccess | failed_run Hrun Hsuccess ].
  destruct (notification_permission env w) as [permission|e1] eqn:Hp;
    cbn in Hrun; [ | failed_run Hrun Hsuccess ].
  destruct (String.eqb permission "granted") eqn:Eg; cbn in Hrun.
  - apply String.eqb_eq in Eg. subst permission.
    destruct (new_notification env w _ _) as [[]|e2]; cbn in Hrun;
      [ | failed_run Hrun Hsuccess ].
    injection Hrun as <- <-. left. split; reflexivity.
  - apply String.eqb_neq in Eg. rewrite Hp in Hrun.
    destruct (String.eqb permission "denied") eqn:Ed; cbn in Hrun;
      [ failed_run Hrun Hsuccess | ].
    apply String.eqb_neq in Ed.
    destruct (request_permission env w) as [answer|e3]; cbn in Hrun;
      [ | failed_run Hrun Hsuccess ].
    destruct (String.eqb answer "granted") eqn:Ea; cbn in Hrun;
      [ | failed_run Hrun Hsuccess ].
    apply String.eqb_eq in Ea. subst answer.
    destruct (new_notification env _ _ _) as [[]|e4]; cbn in Hrun;
      [ | failed_run Hrun Hsuccess ].
    injection Hrun as <- <-.
    right. exists permission. repeat split; assumption.
Qed.

Lemma executeActions_loop_accumulates context actions :
  forall results0 w results w',
    executeActions_loop env actions context [] w = (Ok results, w') ->
    executeActions_loop env actions context results0 w
      = (Ok (results0 ++ results), w').
Proof.
  induction actions as [|action rest IH]; intros results0 w results w' Hrun.
  - injection Hrun as <- <-. now rewrite app_nil_r.
  - cbn [executeActions_loop] in *. unfold bind in *.
    destruct (executeAction env action context w) as [[result|e] wa];
      [|discriminate].
    destruct (success result); cbn [negb] in *.
    + destruct (executeActions_returns env rest context wa)
        as (tail & wt & Htail).
      unfold executeActions in Htail.
      change ([] ++ [result]) with [result] in Hrun.
      rewrite (IH [result] wa tail wt Htail) in Hrun.
      injection Hrun as <- <-.
      rewrite (IH (results0 ++ [result]) wa tail wt Htail).
      now rewrite <- app_assoc.
    + cbn in *. injection Hrun as <- <-. reflexivity.
Qed.

(** X12. Executing a list whose first part succeeds is executing that
    part and then the rest from the world it left: the results are the
    results of the first part followed by those of the rest. *)
Theorem executeActions_app context before after w successes w1 :
  Spec.succeed_in_order env context before w successes w1 ->
  exists results w',
    executeActions env after context w1 = (Ok results, w') /\
    executeActions env (before ++ after) context w
      = (Ok (successes ++ results), w').
Proof.
  intros Hbefore.
  destruct (executeActions_returns env after context w1)
    as (results & w' & Hafter).
  exists results, w'. split; [exact Hafter|].
  induction Hbefore as [w|action rest w result wa successes w1 Hrun Hs _ IH].
  - exact Hafter.
  - specialize (IH Hafter).
    unfold executeActions in *. cbn [app executeActions_loop].
    unfold bind. rewrite Hrun, Hs. cbn [negb].
    now rewrite (executeActions_loop_accumulates _ _ [result] _ _ _ IH).
Qed.

(** X13. [executeActions] returns at most one result per action, an empty
    list only for an empty list of actions, and a list in which every
    result before the last is a success. *)
Theorem executeActions_shape actions context w :
  exists results w',
    executeActions env actions context w = (Ok results, w') /\
    length results <= length actions /\
    (results = [] <-> actions = []) /\
    Forall (fun r => success r = true) (removelast results).
Proof.
  destruct (executeActions_loop_spec env context actions [] w)
    as (results & w' & Hrun & Hcases).
  exists results, w'. split; [exact Hrun|].
  destruct Hcases as [Hall|Hfail].
  - destruct (succeed_in_order_length _ _ _ _ _ _ Hall) as [Hlen Hsucc].
    split; [lia|]. split.
    + destruct results, actions; try discriminate; split; auto; discriminate.
    + clear - Hsucc. induction Hsucc as [|r rs Hr Hrs IH]; [constructor|].
      destruct rs; [constructor|]. constructor; assumption.
  - destruct Hfail as (before & a & after & successes & wa & failure & wb
                       & -> & Hpre & _ & _ & -> & _).
    destruct (succeed_in_order_length _ _ _ _ _ _ Hpre) as [Hlen Hsucc].
    split; [rewrite !length_app; simpl; lia|]. split.
    + split; intros H; [destruct successes|destruct before]; discriminate.
    + now rewrite removelast_last.
Qed.

End MoreActionExecutorFacts.

(** ** More on the dispatch *)

Section MoreRuleEngineFacts.

Import RuleEngine.

Variable evaluateConditions : list RuleCondition -> RuleContext -> M bool.
Variable executeActions :
  list RuleActionConfig -> RuleContext -> M (list ActionResult).

Lemma filter_none eventType (cache : list Rule) :
  Forall (fun rule => trigger rule <> eventType) cache ->
  filter (fun rule => String.eqb (trigger rule) eventType) cache = [].
Proof.
  induction 1 as [|rule rest Hrule _ IH]; simpl; [reflexivity|].
  destruct (String.eqb_spec (trigger rule) eventType); [contradiction|exact IH].
Qed.

(** X14. An event that no cached rule is triggered by is answered with an
    empty list and leaves the world as it was: no context is built, nothing
    is evaluated, nothing is executed. *)
Theorem handleEvent_no_matching_rule this eventType payload w :
  Forall (fun rule => trigger rule <> eventType) (rulesCache this) ->
  RuleEngine.handleEvent evaluateConditions executeActions
    this eventType payload w = (Ok [], w).
Proof.
  intros Hnone. unfold RuleEngine.handleEvent.
  now rewrite (filter_none _ _ Hnone).
Qed.

(** X15. The dry run is the live dispatch: on an engine whose cache holds
    one rule, dispatching an event of that rule's trigger returns the very
    record [testRule] returns for the rule and the payload, and leaves the
    same world. *)
Theorem testRule_is_handleEvent this rule payload w :
  rulesCache this = [rule] ->
  exists result w',
    RuleEngine.testRule evaluateConditions executeActions
      this rule payload w = (Ok result, w') /\
    RuleEngine.handleEvent evaluateConditions executeActions
      this (trigger rule) payload w = (Ok [result], w').
Proof.
  intros Hcache.
  unfold RuleEngine.testRule, RuleEngine.handleEvent. rewrite Hcache.
  cbn [filter]. rewrite String.eqb_refl. cbn [length Nat.eqb].
  cbn [buildContext fresh bind ret fst snd next_ref trace handleEvent_loop
         app].
  match goal with
  | |- context [RuleEngine.evaluateAndExecuteRule _ _ rule ?c ?w0] =>
      destruct (evaluateAndExecuteRule_returns evaluateConditions
                  executeActions rule c w0) as (result & w' & Hrun & _)
  end.
  exists result, w'. split; [exact Hrun|].
  unfold bind. rewrite Hrun. reflexivity.
Qed.

(** X16. Whatever the evaluator and the executor do, the record of a rule
    is consistent: [actionsExecuted] implies [matched] and the absence of an
    error, and so a rule that did not match did not execute. *)
Theorem evaluateAndExecuteRule_consistent rule context w :
  exists result w',
    RuleEngine.evaluateAndExecuteRule evaluateConditions executeActions
      rule context w = (Ok result, w') /\
    (actionsExecuted result = true ->
     matched result = true /\ er_error result = None) /\
    (matched result = false -> actionsExecuted result = false).
Proof.
  unfold RuleEngine.evaluateAndExecuteRule, try_block.
  destruct (evaluateConditions (conditions rule) context w) as [[[]|e] w1];
    cbn.
  - destruct (executeActions (actions rule) context w1)
      as [[actionResults|e] w2]; cbn.
    + eexists; eexists; split; [reflexivity|].
      destruct (forallb success actionResults); cbn.
      * split; [split; reflexivity|discriminate].
      * repeat step; cbn; split; intros; try discriminate; split; congruence.
    + eexists; eexists; split; [reflexivity|]. cbn.
      split; intros; discriminate.
  - eexists; eexists; split; [reflexivity|]. cbn.
    split; [discriminate|reflexivity].
  - eexists; eexists; split; [reflexivity|]. cbn.
    split; [discriminate|reflexivity].
Qed.

End MoreRuleEngineFacts.

(** ** The life cycle of the engine *)

Section LifeCycleFacts.

Import Host RuleEngineInstance.

Variable host : Collaborators.

(** What [loadRules] leaves in the cache. *)
Lemma loadRules_spec s :
  exists s',
    loadRules host s = (Ok tt, s') /\
    RuleEngine.rulesCache (engine (this s')) =
      match db_rules_where_enabled host (history s) with
      | Ok cache => cache
      | Throw _ => []
      end /\
    history s' = history s ++
      match db_rules_where_enabled host (history s) with
      | Ok _ => [DbRulesWhereEnabled]
      | Throw e => [DbRulesWhereEnabled; ErrorLoadFailed e]
      end /\
    RuleEngine.isRunning (engine (this s')) =
      RuleEngine.isRunning (engine (this s)) /\
    RuleEngine.rolloverHour (engine (this s')) =
      RuleEngine.rolloverHour (engine (this s)) /\
    unsubscribers (this s') = unsubscribers (this s) /\
    state s' = state s.
Proof.
  unfold loadRules, try_catchH, bindH, request, note, set_rulesCache, bindH,
    get_this, set_this, record_call.
  cbn. destruct (db_rules_where_enabled host (history s)) as [cache|e]; cbn.
  - eexists. split; [reflexivity|]. cbn. repeat split.
  - eexists. split; [reflexivity|]. cbn. rewrite <- app_assoc.
    repeat split.
Qed.

Lemma reloadRules_spec s :
  exists s',
    reloadRules host s = (Ok tt, s') /\
    RuleEngine.rulesCache (engine (this s')) =
      match db_rules_where_enabled host (history s) with
      | Ok cache => cache
      | Throw _ => []
      end /\
    RuleEngine.isRunning (engine (this s')) =
      RuleEngine.isRunning (engine (this s)) /\
    RuleEngine.rolloverHour (engine (this s')) =
      RuleEngine.rolloverHour (engine (this s)) /\
    unsubscribers (this s') = unsubscribers (this s) /\
    state s' = state s.
Proof.
  destruct (loadRules_spec s) as (s1 & Hload & Hcache & _ & Hrun & Hroll
                                  & Hsubs & Hstate).
  unfold reloadRules, bindH. rewrite Hload. cbn.
  eexists. split; [reflexivity|]. cbn. repeat split; assumption.
Qed.


(** X17. [reloadRules] never throws.  It replaces the cache by the enabled
    rules the database answers, or by the empty list when the database
    throws, and touches neither the running flag, nor the rollover hour,
    nor the subscriptions, nor the store. *)
Theorem reloadRules_replaces_cache s :
  exists s',
    reloadRules host s = (Ok tt, s') /\
    RuleEngine.rulesCache (engine (this s')) =
      match db_rules_where_enabled host (history s) with
      | Ok cache => cache
      | Throw _ => []
      end /\
    RuleEngine.isRunning (engine (this s')) =
      RuleEngine.isRunning (engine (this s)) /\
    RuleEngine.rolloverHour (engine (this s')) =
      RuleEngine.rolloverHour (engine (this s)) /\
    unsubscribers (this s') = unsubscribers (this s) /\
    state s' = state s.
Proof. apply reloadRules_spec. Qed.

(** X18. When the database throws while the rules are loaded, the engine
    stays in service with no rule: every event is then answered with an
    empty list, the world untouched. *)
Theorem reloadRules_failure_matches_nothing s e :
  db_rules_where_enabled host (history s) = Throw e ->
  exists s',
    reloadRules host s = (Ok tt, s') /\
    forall env eventType payload w,
      Program.handleEvent env (engine (this s')) eventType payload w
      = (Ok [], w).
Proof.
  intros Hdb.
  destruct (loadRules_spec s) as (s1 & Hload & Hcache & _).
  rewrite Hdb in Hcache.
  unfold reloadRules, bindH. rewrite Hload. cbn.
  eexists. split; [reflexivity|]. cbn.
  intros env eventType payload w.
  unfold Program.handleEvent, RuleEngine.handleEvent. now rewrite Hcache.
Qed.

(** X19. [start] on an engine that is running only warns: nothing is asked
    of the database or of the bus, and the engine keeps its cache, its
    rollover hour and its subscriptions. *)
Theorem start_when_running rolloverHour s :
  RuleEngine.isRunning (engine (this s)) = true ->
  start host rolloverHour s = (Ok tt, record_call WarnAlreadyRunning s).
Proof.
  intros Hrun. unfold start, bindH, get_this. cbn. now rewrite Hrun.
Qed.


Lemma bindH_ok {A B} (m : H A) (k : A -> H B) s a s' :
  m s = (Ok a, s') -> bindH m k s = k a s'.
Proof. unfold bindH. now intros ->. Qed.

Lemma bindH_throw {A B} (m : H A) (k : A -> H B) s e s' :
  m s = (Throw e, s') -> bindH m k s = (Throw e, s').
Proof. unfold bindH. now intros ->. Qed.


Lemma unsubscribe_each_spec subs :
  (forall h sub, subscription_unsubscribe host h sub = Ok tt) ->
  forall s,
    unsubscribe_each host subs s =
      (Ok tt, {| history := history s ++ map Unsubscribe subs;
                 this := this s; state := state s |}).
Proof.
  intros Hbus. induction subs as [|sub rest IH]; intros s.
  - cbn. rewrite app_nil_r. now destruct s.
  - cbn [unsubscribe_each]. unfold bindH, request. rewrite Hbus.
    rewrite IH. cbn. now rewrite <- app_assoc.
Qed.

Lemma stop_spec s :
  (forall h sub, subscription_unsubscribe host h sub = Ok tt) ->
  exists s',
    stop host s = (Ok tt, s') /\
    history s' = history s ++ map Unsubscribe (unsubscribers (this s)) ++
                 [LogStopped] /\
    unsubscribers (this s') = [] /\
    RuleEngine.isRunning (engine (this s')) = false /\
    RuleEngine.rulesCache (engine (this s')) =
      RuleEngine.rulesCache (engine (this s)) /\
    RuleEngine.rolloverHour (engine (this s')) =
      RuleEngine.rolloverHour (engine (this s)) /\
    state s' = state s.
Proof.
  intros Hbus. unfold stop.
  rewrite (bindH_ok get_this _ s (this s) s eq_refl).
  rewrite (bindH_ok (unsubscribe_each host (unsubscribers (this s))) _ _ _ _
             (unsubscribe_each_spec _ Hbus s)).
  eexists. split; [reflexivity|]. cbn.
  rewrite <- app_assoc. repeat split.
Qed.


(** X21. With subscriptions that can be cancelled, [stop] cancels every
    subscription held, each once and in the order they were made, and leaves
    the engine stopped with none held; the cache, the rollover hour and the
    store stay as they were. *)
Theorem stop_releases_subscriptions s :
  (forall h sub, subscription_unsubscribe host h sub = Ok tt) ->
  exists s',
    stop host s = (Ok tt, s') /\
    history s' = history s ++ map Unsubscribe (unsubscribers (this s)) ++
                 [LogStopped] /\
    unsubscribers (this s') = [] /\
    RuleEngine.isRunning (engine (this s')) = false /\
    RuleEngine.rulesCache (engine (this s')) =
      RuleEngine.rulesCache (engine (this s)) /\
    RuleEngine.rolloverHour (engine (this s')) =
      RuleEngine.rolloverHour (engine (this s)) /\
    state s' = state s.
Proof. apply stop_spec. Qed.

(** X22. [stop] is idempotent: with subscriptions that can be cancelled, a
    second [stop] cancels nothing and leaves the engine as the first one
    left it. *)
Theorem stop_twice s :
  (forall h sub, subscription_unsubscribe host h sub = Ok tt) ->
  exists s1 s2,
    stop host s = (Ok tt, s1) /\
    stop host s1 = (Ok tt, s2) /\
    this s2 = this s1 /\
    history s2 = history s1 ++ [LogStopped].
Proof.
  intros Hbus.
  destruct (stop_spec s Hbus) as (s1 & Hstop & _ & Hsubs & Hrun & _).
  destruct (stop_spec s1 Hbus) as (s2 & Hstop2 & Hhist & Hsubs2 & Hrun2
                                   & Hcache & Hroll & _).
  exists s1, s2. rewrite Hsubs in Hhist. cbn in Hhist.
  repeat split; try assumption.
  destruct (this s1) as [[r1 c1 h1] u1], (this s2) as [[r2 c2 h2] u2].
  cbn in *. congruence.
Qed.


End LifeCycleFacts.

(** ** The rules store *)

Section RulesStoreFacts.

Import Host RulesStore Notions.

Variable host : Collaborators.

Lemma find_snoc {A} (f : A -> bool) (l : list A) (x : A) :
  find f (l ++ [x]) =
    match find f l with
    | Some y => Some y
    | None => if f x then Some x else None
    end.
Proof.
  induction l as [|a l IH]; simpl; [reflexivity|].
  destruct (f a); [reflexivity|exact IH].
Qed.

Lemma getRuleById_after_delete rows id_ j isLoading_ :
  getRuleById
    {| rules := filter (fun r => negb (String.eqb (id (rule r)) id_)) rows;
       isLoading := isLoading_ |} j
  = if String.eqb j id_ then None
    else getRuleById {| rules := rows; isLoading := isLoading_ |} j.
Proof.
  unfold getRuleById. cbn [rules].
  induction rows as [|r rows IH]; simpl.
  - now destruct (String.eqb j id_).
  - destruct (String.eqb_spec (id (rule r)) id_) as [E|E]; cbn [negb].
    + rewrite IH. destruct (String.eqb_spec j id_) as [->|Hj]; [reflexivity|].
      destruct (String.eqb_spec (id (rule r)) j) as [E'|_]; [|reflexivity].
      congruence.
    + cbn [find]. destruct (String.eqb_spec (id (rule r)) j) as [E'|_].
      * destruct (String.eqb_spec j id_); [congruence|reflexivity].
      * exact IH.
Qed.

Lemma getRuleById_after_update rows id_ changes j isLoading_ :
  patch_id changes = None ->
  getRuleById
    {| rules := map (fun r => if String.eqb (id (rule r)) id_
                              then spread r changes else r) rows;
       isLoading := isLoading_ |} j
  = if String.eqb j id_
    then option_map (fun r => spread r changes)
           (getRuleById {| rules := rows; isLoading := isLoading_ |} j)
    else getRuleById {| rules := rows; isLoading := isLoading_ |} j.
Proof.
  intros Hid. unfold getRuleById. cbn [rules].
  induction rows as [|r rows IH]; simpl.
  - now destruct (String.eqb j id_).
  - destruct (String.eqb_spec (id (rule r)) id_) as [E|E].
    + assert (Hsame : id (rule (spread r changes)) = id (rule r))
        by (unfold spread; cbn; now rewrite Hid).
      rewrite Hsame.
      destruct (String.eqb_spec (id (rule r)) j) as [E'|E'].
      * destruct (String.eqb_spec j id_); [reflexivity|congruence].
      * exact IH.
    + destruct (String.eqb_spec (id (rule r)) j) as [E'|E'].
      * destruct (String.eqb_spec j id_); [congruence|reflexivity].
      * exact IH.
Qed.

Lemma request_ok {A} (c : call) (answer : list call -> outcome A) s a :
  answer (history s) = Ok a -> request c answer s = (Ok a, record_call c s).
Proof. unfold request. now intros ->. Qed.

Lemma request_throw {A} (c : call) (answer : list call -> outcome A) s e :
  answer (history s) = Throw e ->
  request c answer s = (Throw e, record_call c s).
Proof. unfold request. now intros ->. Qed.

Lemma createRule_spec data s :
  let id_ := generateId host (history s) in
  let now := Date_now host (history s ++ [GenerateId]) in
  let row := created data id_ now in
  match db_rules_add host (history s ++ [GenerateId; DateNow]) row with
  | Ok _ =>
      exists s',
        createRule host data s = (Ok id_, s') /\
        rules (state s') = rules (state s) ++ [row] /\
        isLoading (state s') = isLoading (state s) /\
        RuleEngine.rulesCache (engine (this s')) =
          match db_rules_where_enabled host
                  (history s ++ [GenerateId; DateNow; DbRulesAdd row]) with
          | Ok cache => cache
          | Throw _ => []
          end
  | Throw e =>
      exists s',
        createRule host data s = (Throw e, s') /\
        state s' = state s /\ this s' = this s
  end.
Proof.
  cbv zeta. unfold createRule.
  rewrite (bindH_ok (request GenerateId (fun h => Ok (generateId host h)))
             _ s _ _ eq_refl).
  rewrite (bindH_ok (request DateNow (fun h => Ok (Date_now host h)))
             _ _ _ _ eq_refl).
  cbn [record_call history this state].
  change (created data (generateId host (history s))
            (Date_now host (history s ++ [GenerateId])))
    with {| rule := {| id := generateId host (history s);
                       name := new_name data; trigger := new_trigger data;
                       conditions := new_conditions data;
                       actions := new_actions data;
                       enabled := nullish (new_enabled data) true |};
            createdAt := Date_now host (history s ++ [GenerateId]);
            updatedAt := Date_now host (history s ++ [GenerateId]) |}.
  match goal with
  | |- match ?answer with _ => _ end =>
      destruct answer as [[]|e] eqn:Hadd
  end.
  - erewrite (bindH_ok (request (DbRulesAdd _) _)); cycle 1.
    { apply request_ok. cbn [record_call history].
      rewrite <- app_assoc. exact Hadd. }
    rewrite (bindH_ok (set_state _) _ _ _ _ eq_refl).
    match goal with
    | |- context [bindH (RuleEngineInstance.reloadRules host) _ ?s0] =>
        destruct (reloadRules_spec host s0)
          as (s' & Hreload & Hcache & _ & _ & _ & Hstate)
    end.
    rewrite (bindH_ok (RuleEngineInstance.reloadRules host) _ _ _ _ Hreload).
    exists s'. split; [reflexivity|].
    cbn in Hstate, Hcache. rewrite Hstate, Hcache.
    rewrite <- !app_assoc. cbn [app]. repeat split.
  - erewrite (bindH_throw (request (DbRulesAdd _) _)); cycle 1.
    { apply request_throw. cbn [record_call history].
      rewrite <- app_assoc. exact Hadd. }
    eexists. split; [reflexivity|]. split; reflexivity.
Qed.

(** X24. When the database accepts the new row, [createRule] returns the
    generated id and appends to the store the row built from its argument:
    enabled unless the argument says otherwise, created and updated at the
    same time.  If the id is new to the store, the rule is then found under
    it.  The engine has reloaded its cache after the row was written. *)
Theorem createRule_adds_rule data s :
  let id_ := generateId host (history s) in
  let now := Date_now host (history s ++ [GenerateId]) in
  let row := created data id_ now in
  db_rules_add host (history s ++ [GenerateId; DateNow]) row = Ok tt ->
  exists s',
    createRule host data s = (Ok id_, s') /\
    rules (state s') = rules (state s) ++ [row] /\
    (getRuleById (state s) id_ = None ->
     getRuleById (state s') id_ = Some row) /\
    RuleEngine.rulesCache (engine (this s')) =
      match db_rules_where_enabled host
              (history s ++ [GenerateId; DateNow; DbRulesAdd row]) with
      | Ok cache => cache
      | Throw _ => []
      end.
Proof.
  cbv zeta. intros Hadd.
  pose proof (createRule_spec data s) as Hspec. cbv zeta in Hspec.
  rewrite Hadd in Hspec.
  destruct Hspec as (s' & Hrun & Hrules & _ & Hcache).
  exists s'. split; [exact Hrun|]. split; [exact Hrules|].
  split; [|exact Hcache].
  intros Hnew. unfold getRuleById in *. rewrite Hrules, find_snoc, Hnew.
  cbn. now rewrite String.eqb_refl.
Qed.

Lemma updateRule_spec id_ data s :
  let now := Date_now host (history s) in
  match db_rules_update host (history s ++ [DateNow]) id_ (stamped data now)
  with
  | Ok _ =>
      exists s',
        updateRule host id_ data s = (Ok tt, s') /\
        state s' =
          {| rules := map (fun r => if String.eqb (id (rule r)) id_
                                    then spread r (stamped data now) else r)
                          (rules (state s));
             isLoading := isLoading (state s) |}
  | Throw e =>
      exists s',
        updateRule host id_ data s = (Throw e, s') /\
        state s' = state s /\ this s' = this s
  end.
Proof.
  cbv zeta. unfold updateRule.
  rewrite (bindH_ok (request DateNow (fun h => Ok (Date_now host h)))
             _ s _ _ eq_refl).
  cbn [record_call history this state].
  match goal with
  | |- match ?answer with _ => _ end =>
      destruct answer as [[]|e] eqn:Hupdate
  end.
  - erewrite (bindH_ok (request (DbRulesUpdate _ _) _)); cycle 1.
    { apply request_ok. cbn [record_call history]. exact Hupdate. }
    rewrite (bindH_ok (set_state _) _ _ _ _ eq_refl). cbv beta.
    match goal with
    | |- context [RuleEngineInstance.reloadRules host ?s0] =>
        destruct (reloadRules_spec host s0)
          as (s' & Hreload & _ & _ & _ & _ & Hstate)
    end.
    exists s'. split; [exact Hreload|]. exact Hstate.
  - erewrite (bindH_throw (request (DbRulesUpdate _ _) _)); cycle 1.
    { apply request_throw. cbn [record_call history]. exact Hupdate. }
    eexists. split; [reflexivity|]. split; reflexivity.
Qed.

Lemma deleteRule_spec id_ s :
  match db_rules_delete host (history s) id_ with
  | Ok _ =>
      exists s',
        deleteRule host id_ s = (Ok tt, s') /\
        state s' =
          {| rules := filter (fun r => negb (String.eqb (id (rule r)) id_))
                             (rules (state s));
             isLoading := isLoading (state s) |}
  | Throw e =>
      exists s',
        deleteRule host id_ s = (Throw e, s') /\
        state s' = state s /\ this s' = this s
  end.
Proof.
  unfold deleteRule.
  destruct (db_rules_delete host (history s) id_) as [[]|e] eqn:Hdelete.
  - erewrite (bindH_ok (request (DbRulesDelete _) _)); cycle 1.
    { apply request_ok. exact Hdelete. }
    rewrite (bindH_ok (set_state _) _ _ _ _ eq_refl). cbv beta.
    match goal with
    | |- context [RuleEngineInstance.reloadRules host ?s0] =>
        destruct (reloadRules_spec host s0)
          as (s' & Hreload & _ & _ & _ & _ & Hstate)
    end.
    exists s'. split; [exact Hreload|]. exact Hstate.
  - erewrite (bindH_throw (request (DbRulesDelete _) _)); cycle 1.
    { apply request_throw. exact Hdelete. }
    eexists. split; [reflexivity|]. split; reflexivity.
Qed.

(** X25. When the database refuses a write, [createRule], [updateRule] and
    [deleteRule] throw what the database threw and leave the store and the
    engine as they were: the store never runs ahead of the database. *)
Theorem store_write_failure s e :
  (forall data,
     db_rules_add host (history s ++ [GenerateId; DateNow])
       (created data (generateId host (history s))
          (Date_now host (history s ++ [GenerateId]))) = Throw e ->
     exists s', createRule host data s = (Throw e, s') /\
                state s' = state s /\ this s' = this s) /\
  (forall id_ data,
     db_rules_update host (history s ++ [DateNow]) id_
       (stamped data (Date_now host (history s))) = Throw e ->
     exists s', updateRule host id_ data s = (Throw e, s') /\
                state s' = state s /\ this s' = this s) /\
  (forall id_,
     db_rules_delete host (history s) id_ = Throw e ->
     exists s', deleteRule host id_ s = (Throw e, s') /\
                state s' = state s /\ this s' = this s).
Proof.
  repeat split.
  - intros data Hadd. pose proof (createRule_spec data s) as Hspec.
    cbv zeta in Hspec. now rewrite Hadd in Hspec.
  - intros id_ data Hupdate. pose proof (updateRule_spec id_ data s) as Hspec.
    cbv zeta in Hspec. now rewrite Hupdate in Hspec.
  - intros id_ Hdelete. pose proof (deleteRule_spec id_ s) as Hspec.
    now rewrite Hdelete in Hspec.
Qed.

(** X26. When the database accepts the deletion, the rule is no longer
    found under its id, and every other id finds what it found before. *)
Theorem deleteRule_removes_rule id_ s :
  db_rules_delete host (history s) id_ = Ok tt ->
  exists s',
    deleteRule host id_ s = (Ok tt, s') /\
    getRuleById (state s') id_ = None /\
    forall j, j <> id_ -> getRuleById (state s') j = getRuleById (state s) j.
Proof.
  intros Hdelete. pose proof (deleteRule_spec id_ s) as Hspec.
  rewrite Hdelete in Hspec. destruct Hspec as (s' & Hrun & Hstate).
  exists s'. split; [exact Hrun|]. rewrite Hstate. split.
  - rewrite getRuleById_after_delete. now rewrite String.eqb_refl.
  - intros j Hj. rewrite getRuleById_after_delete.
    destruct (String.eqb_spec j id_); [contradiction|].
    now destruct (state s).
Qed.

(** X27. When the database accepts an update that does not change the id,
    the rule found under the id is the old one with the fields of the update
    written over it and [updatedAt] set to the time read; every other id
    finds what it found before, and an id that found nothing still finds
    nothing. *)
Theorem updateRule_changes_rule id_ data s :
  let now := Date_now host (history s) in
  patch_id data = None ->
  db_rules_update host (history s ++ [DateNow]) id_ (stamped data now)
    = Ok tt ->
  exists s',
    updateRule host id_ data s = (Ok tt, s') /\
    getRuleById (state s') id_ =
      option_map (fun r => spread r (stamped data now))
                 (getRuleById (state s) id_) /\
    (forall r', getRuleById (state s') id_ = Some r' -> updatedAt r' = now) /\
    forall j, j <> id_ -> getRuleById (state s') j = getRuleById (state s) j.
Proof.
  cbv zeta. intros Hid Hupdate.
  pose proof (updateRule_spec id_ data s) as Hspec. cbv zeta in Hspec.
  rewrite Hupdate in Hspec. destruct Hspec as (s' & Hrun & Hstate).
  exists s'. split; [exact Hrun|]. rewrite Hstate.
  assert (Hfind : forall j,
    getRuleById
      {| rules := map (fun r => if String.eqb (id (rule r)) id_
                                then spread r
                                       (stamped data (Date_now host (history s)))
                                else r) (rules (state s));
         isLoading := isLoading (state s) |} j
    = if String.eqb j id_
      then option_map
             (fun r => spread r (stamped data (Date_now host (history s))))
             (getRuleById (state s) j)
      else getRuleById (state s) j).
  { intros j. rewrite getRuleById_after_update by exact Hid.
    now destruct (state s). }
  split; [|split].
  - rewrite Hfind. now rewrite String.eqb_refl.
  - intros r'. rewrite Hfind, String.eqb_refl.
    destruct (getRuleById (state s) id_) as [r|]; [|discriminate].
    cbn. now intros [= <-].
  - intros j Hj. rewrite Hfind.
    now destruct (String.eqb_spec j id_).
Qed.

(** X28. [toggleRule] on an id the store does not hold does nothing and asks
    nothing of the database.  On a rule the store holds, when the database
    accepts the update, the rule found under the id afterwards has the
    opposite [enabled] and is otherwise the rule it was, [updatedAt]
    apart. *)
Theorem toggleRule_flips_enabled id_ s :
  match getRuleById (state s) id_ with
  | None => toggleRule host id_ s = (Ok tt, s)
  | Some r =>
      db_rules_update host (history s ++ [DateNow]) id_
        (stamped (only_enabled (negb (enabled (rule r))))
                 (Date_now host (history s))) = Ok tt ->
      exists s' r',
        toggleRule host id_ s = (Ok tt, s') /\
        getRuleById (state s') id_ = Some r' /\
        enabled (rule r') = negb (enabled (rule r)) /\
        id (rule r') = id (rule r) /\ name (rule r') = name (rule r) /\
        trigger (rule r') = trigger (rule r) /\
        conditions (rule r') = conditions (rule r) /\
        actions (rule r') = actions (rule r) /\
        createdAt r' = createdAt r
  end.
Proof.
  unfold toggleRule.
  rewrite (bindH_ok get_state _ s (state s) s eq_refl).
  destruct (getRuleById (state s) id_) as [r|] eqn:Hfound; [|reflexivity].
  intros Hupdate.
  pose proof (updateRule_spec id_ (only_enabled (negb (enabled (rule r)))) s)
    as Hspec.
  cbv zeta in Hspec. rewrite Hupdate in Hspec.
  destruct Hspec as (s' & Hrun & Hstate).
  exists s'. eexists. split; [exact Hrun|]. rewrite Hstate.
  split.
  - rewrite getRuleById_after_update by reflexivity.
    rewrite String.eqb_refl.
    replace (getRuleById {| rules := rules (state s);
                            isLoading := isLoading (state s) |} id_)
      with (Some r) by (rewrite <- Hfound; now destruct (state s)).
    reflexivity.
  - cbn. repeat split.
Qed.

(** X29. [duplicateRule] on an id the store does not hold throws
    "Kural bulunamadı" and changes nothing.  On a rule the store holds,
    when the database accepts the new row, it appends a copy under the
    generated id, which it returns: same trigger, conditions and actions,
    the name followed by " (Kopya)", and disabled. *)
Theorem duplicateRule_copies_disabled id_ s :
  match getRuleById (state s) id_ with
  | None =>
      duplicateRule host id_ s = (Throw (Thrown "Error: Kural bulunamadı"), s)
  | Some r =>
      let copy :=
        {| rule := {| id := generateId host (history s);
                      name := String.append (name (rule r)) " (Kopya)";
                      trigger := trigger (rule r);
                      conditions := conditions (rule r);
                      actions := actions (rule r);
                      enabled := false |};
           createdAt := Date_now host (history s ++ [GenerateId]);
           updatedAt := Date_now host (history s ++ [GenerateId]) |} in
      db_rules_add host (history s ++ [GenerateId; DateNow]) copy = Ok tt ->
      exists s',
        duplicateRule host id_ s = (Ok (generateId host (history s)), s') /\
        rules (state s') = rules (state s) ++ [copy]
  end.
Proof.
  unfold duplicateRule.
  rewrite (bindH_ok get_state _ s (state s) s eq_refl).
  destruct (getRuleById (state s) id_) as [r|]; [|reflexivity].
  cbv zeta. intros Hadd.
  match goal with
  | |- context [createRule host ?data s] =>
      pose proof (createRule_spec data s) as Hspec
  end.
  cbv zeta in Hspec. unfold created in Hspec. cbn in Hspec.
  rewrite Hadd in Hspec. destruct Hspec as (s' & Hrun & Hrules & _).
  exists s'. split; assumption.
Qed.

(** X30. [initialize] never throws and always ends the loading: the store
    then holds the rows the database answered, or, when the database threw,
    the rows it held before. *)
Theorem initialize_ends_loading s :
  exists s',
    initialize host s = (Ok tt, s') /\
    isLoading (state s') = false /\
    rules (state s') =
      match db_rules_toArray host (history s) with
      | Ok rows => rows
      | Throw _ => rules (state s)
      end /\
    this s' = this s.
Proof.
  unfold initialize, try_catchH, bindH, request, note, set_state, record_call.
  destruct (db_rules_toArray host (history s)) as [rows|e]; cbn;
    eexists; (split; [reflexivity|]); cbn; repeat split.
Qed.

End RulesStoreFacts.

(** ** The further properties at concrete inputs *)

Section MoreInstances.

Import ConditionEvaluator ActionExecutor Samples Notions.

(** A count of 10 against 5: greater, hence not lower-or-equal. *)
Lemma evaluateCondition_number_order_witness :
  exists gt lte,
    evaluateCondition
      {| field := "payload.count"; operator := "gt";
         value_ := VNum 5%float |}
      (createMockContext (VObj 7 [("count", VNum 10%float)])) start
    = (Ok gt, start) /\
    evaluateCondition
      {| field := "payload.count"; operator := "lte";
         value_ := VNum 5%float |}
      (createMockContext (VObj 7 [("count", VNum 10%float)])) start
    = (Ok lte, start) /\
    gt = negb lte.
Proof.
  destruct (evaluateCondition_number_order "payload.count"
              (createMockContext (VObj 7 [("count", VNum 10%float)]))
              start 10%float 5%float eq_refl)
    as (gt & gte & lt & lte & eq & neq & Hgt & _ & _ & Hlte & _ & _ & _ & _
        & _ & Hord & _).
  exists gt, lte. split; [exact Hgt|]. split; [exact Hlte|].
  apply Hord; reflexivity.
Defined.

(** An operator the evaluator does not know. *)
Lemma evaluateCondition_effect_witness :
  evaluateCondition
    {| field := "payload.name"; operator := "like"; value_ := VStr "x" |}
    (createMockContext (VObj 7 [])) start
  = (Ok false, {| trace := [WarnUnknownOperator "like"]; next_ref := 100 |}).
Proof.
  apply (proj2 (evaluateCondition_effect
                  {| field := "payload.name"; operator := "like";
                     value_ := VStr "x" |}
                  (createMockContext (VObj 7 [])) start)).
  simpl. intros [H|[H|[H|[H|[H|[H|[H|[]]]]]]]]; discriminate.
Defined.

(** A false comparison before a condition with an unknown operator: the
    unknown operator is never reached. *)
Lemma evaluateConditions_short_circuit_witness :
  evaluateConditions
    ([{| field := "payload.status"; operator := "eq";
         value_ := VStr "active" |}] ++
     {| field := "payload.count"; operator := "gt";
        value_ := VNum 100%float |} ::
     [{| field := "payload.name"; operator := "like"; value_ := VStr "x" |}])
    (createMockContext
       (VObj 7 [("status", VStr "active"); ("count", VNum 10%float)])) start
  = (Ok false, start).
Proof.
  rewrite evaluateConditions_short_circuit; [reflexivity|].
  intros w1. reflexivity.
Defined.

(** A type the executor does not know. *)
Lemma executeAction_unknown_type_witness :
  executeAction browser {| type_ := "SEND_EMAIL"; params := [] |}
    (createMockContext (VObj 7 [])) start
  = (Ok (failure "SEND_EMAIL" "Bilinmeyen aksiyon türü: SEND_EMAIL"), start).
Proof.
  apply (executeAction_unknown_type browser
           {| type_ := "SEND_EMAIL"; params := [] |}).
  simpl. intros [H|[H|[H|[H|[]]]]]; discriminate.
Defined.

(** An empty [activityId]. *)
Lemma executeAction_start_timer_falsy_activity_witness :
  executeAction browser
    {| type_ := "START_TIMER"; params := [("activityId", VStr "")] |}
    (createMockContext (VObj 7 [])) start
  = (Ok (failure "START_TIMER" "activityId gerekli"), start).
Proof.
  apply executeAction_start_timer_falsy_activity; reflexivity.
Defined.

(** A timer started for an activity. *)
Lemma executeAction_start_timer_protocol_witness :
  executeAction browser (start_timer_for "reading")
    (createMockContext (VObj 7 [])) start
  = (Ok {| actionType := "START_TIMER"; success := true; error := None;
           data := Some [("timerId", VStr "timer-1")] |},
     after_call (after_call start ImportTimerStore)
       (StartTimer (VStr "reading") "normal")).
Proof.
  exact (executeAction_start_timer_protocol browser
           (start_timer_for "reading") (createMockContext (VObj 7 [])) start
           eq_refl eq_refl).
Defined.

(** Notifications denied. *)
Lemma executeAction_notify_refused_witness :
  executeAction browser_denied notify (createMockContext (VObj 7 [])) start
  = (Ok (failure "NOTIFY" "Bildirim izni verilmedi"), start).
Proof.
  apply executeAction_notify_refused; [reflexivity|].
  right. split; reflexivity.
Defined.

(** Notifications granted: the notification is shown without a prompt. *)
Lemma executeAction_notify_success_witness :
  (notification_permission browser start = Ok "granted" /\
   {| trace := [NewNotification (VStr "Pomodoro") (VStr "")];
      next_ref := 100 |}
   = after_call start (NewNotification (VStr "Pomodoro") (VStr ""))) \/
  (exists permission,
     notification_permission browser start = Ok permission /\
     permission <> "granted" /\ permission <> "denied" /\
     request_permission browser start = Ok "granted" /\
     {| trace := [NewNotification (VStr "Pomodoro") (VStr "")];
        next_ref := 100 |}
     = after_call (after_call start RequestPermission)
         (NewNotification (VStr "Pomodoro") (VStr ""))).
Proof.
  exact (executeAction_notify_success browser notify
           (createMockContext (VObj 7 [])) start
           {| actionType := "NOTIFY"; success := true; error := None;
              data := None |}
           {| trace := [NewNotification (VStr "Pomodoro") (VStr "")];
              next_ref := 100 |}
           eq_refl eq_refl eq_refl).
Defined.

(** A message logged, then two more actions of which the first fails. *)
Lemma executeActions_app_witness :
  exists results w',
    executeActions browser [start_timer_without_activity; log "c"]
      (createMockContext (VObj 7 []))
      (after_call start (LogMessage (VStr "a") (VObj 7 [])))
    = (Ok results, w') /\
    executeActions browser
      ([log "a"] ++ [start_timer_without_activity; log "c"])
      (createMockContext (VObj 7 [])) start
    = (Ok ([{| actionType := "LOG_MESSAGE"; success := true; error := None;
               data := Some [("message", VStr "a")] |}] ++ results), w').
Proof.
  apply (executeActions_app browser (createMockContext (VObj 7 []))
           [log "a"] [start_timer_without_activity; log "c"] start).
  econstructor; [reflexivity|reflexivity|constructor].
Defined.

(** No sample rule is triggered by TIMER_STARTED. *)
Lemma handleEvent_no_matching_rule_witness :
  Program.handleEvent browser engine "TIMER_STARTED" (VObj 7 []) start
  = (Ok [], start).
Proof.
  apply handleEvent_no_matching_rule.
  repeat constructor; discriminate.
Defined.

(** The session rule alone in the cache. *)
Lemma testRule_is_handleEvent_witness :
  exists result w',
    Program.testRule browser
      {| RuleEngine.isRunning := true;
         RuleEngine.rulesCache := [session_to_habit];
         RuleEngine.rolloverHour := 4 |}
      session_to_habit (session 2000%float) start = (Ok result, w') /\
    Program.handleEvent browser
      {| RuleEngine.isRunning := true;
         RuleEngine.rulesCache := [session_to_habit];
         RuleEngine.rolloverHour := 4 |}
      "SESSION_CREATED" (session 2000%float) start = (Ok [result], w').
Proof.
  apply (testRule_is_handleEvent ConditionEvaluator.evaluateConditions
           (ActionExecutor.executeActions browser)
           {| RuleEngine.isRunning := true;
              RuleEngine.rulesCache := [session_to_habit];
              RuleEngine.rolloverHour := 4 |}
           session_to_habit (session 2000%float) start eq_refl).
Defined.

End MoreInstances.

Section HostInstances.

Import Host RuleEngineInstance RulesStore HostSamples Notions.

(** A database that is closed when the rules are reloaded. *)
Lemma reloadRules_failure_matches_nothing_witness :
  exists s',
    reloadRules broken_db loaded = (Ok tt, s') /\
    Program.handleEvent Samples.browser (engine (this s'))
      "POMODORO_COMPLETED" (VObj 7 []) Samples.start = (Ok [], Samples.start).
Proof.
  destruct (reloadRules_failure_matches_nothing broken_db loaded
              (Thrown "DatabaseClosedError") eq_refl) as (s' & Hrun & Hnone).
  exists s'. split; [exact Hrun|apply Hnone].
Defined.

(** A second [start]. *)
Lemma start_when_running_witness :
  start quiet 6 loaded = (Ok tt, record_call WarnAlreadyRunning loaded).
Proof. apply start_when_running. reflexivity. Defined.


(** [stop] on an engine that holds two subscriptions. *)
Lemma stop_releases_subscriptions_witness :
  exists s',
    stop quiet loaded = (Ok tt, s') /\
    history s' = [Unsubscribe 3; Unsubscribe 5; LogStopped] /\
    unsubscribers (this s') = [].
Proof.
  destruct (stop_releases_subscriptions quiet loaded (fun _ _ => eq_refl))
    as (s' & Hrun & Hhist & Hsubs & _).
  exists s'. split; [exact Hrun|]. split; [exact Hhist|exact Hsubs].
Defined.

Lemma stop_twice_witness :
  exists s1 s2,
    stop quiet loaded = (Ok tt, s1) /\
    stop quiet s1 = (Ok tt, s2) /\
    this s2 = this s1 /\
    history s2 = history s1 ++ [LogStopped].
Proof. exact (stop_twice quiet loaded (fun _ _ => eq_refl)). Defined.


(** A first rule created in an empty store. *)
Lemma createRule_adds_rule_witness :
  exists s',
    createRule quiet pomodoro_rule boot = (Ok "rule-0", s') /\
    rules (state s') = [created pomodoro_rule "rule-0" 1000%float] /\
    getRuleById (state s') "rule-0"
      = Some (created pomodoro_rule "rule-0" 1000%float).
Proof.
  destruct (createRule_adds_rule quiet pomodoro_rule boot eq_refl)
    as (s' & Hrun & Hrules & Hfind & _).
  exists s'. split; [exact Hrun|]. split; [exact Hrules|].
  apply Hfind. reflexivity.
Defined.

(** A closed database refuses the deletion. *)
Lemma store_write_failure_witness :
  exists s',
    deleteRule broken_db "r1" loaded
      = (Throw (Thrown "DatabaseClosedError"), s') /\
    state s' = state loaded /\ this s' = this loaded.
Proof.
  apply (proj2 (proj2 (store_write_failure broken_db loaded
                         (Thrown "DatabaseClosedError")))).
  reflexivity.
Defined.

Lemma deleteRule_removes_rule_witness :
  exists s',
    deleteRule quiet "r1" loaded = (Ok tt, s') /\
    getRuleById (state s') "r1" = None /\
    getRuleById (state s') "session-to-habit"
      = Some (row_of Samples.session_to_habit).
Proof.
  destruct (deleteRule_removes_rule quiet "r1" loaded eq_refl)
    as (s' & Hrun & Hgone & Hothers).
  exists s'. split; [exact Hrun|]. split; [exact Hgone|].
  rewrite Hothers; [reflexivity|discriminate].
Defined.

(** A rule renamed. *)
Lemma updateRule_changes_rule_witness :
  exists s' r',
    updateRule quiet "r1"
      {| patch_id := None; patch_name := Some "renamed";
         patch_trigger := None; patch_conditions := None;
         patch_actions := None; patch_enabled := None;
         patch_createdAt := None; patch_updatedAt := None |} loaded
    = (Ok tt, s') /\
    getRuleById (state s') "r1" = Some r' /\
    name (rule r') = "renamed" /\ updatedAt r' = 1000%float.
Proof.
  destruct (updateRule_changes_rule quiet "r1"
              {| patch_id := None; patch_name := Some "renamed";
                 patch_trigger := None; patch_conditions := None;
                 patch_actions := None; patch_enabled := None;
                 patch_createdAt := None; patch_updatedAt := None |}
              loaded eq_refl eq_refl) as (s' & Hrun & Hfind & _).
  exists s'. eexists. split; [exact Hrun|]. split; [exact Hfind|].
  split; reflexivity.
Defined.

(** An enabled rule toggled. *)
Lemma toggleRule_flips_enabled_witness :
  exists s' r',
    toggleRule quiet "r1" loaded = (Ok tt, s') /\
    getRuleById (state s') "r1" = Some r' /\
    enabled (rule r') = false.
Proof.
  destruct (toggleRule_flips_enabled quiet "r1" loaded eq_refl)
    as (s' & r' & Hrun & Hfind & Henabled & _).
  exists s', r'. split; [exact Hrun|]. split; [exact Hfind|exact Henabled].
Defined.

(** A rule duplicated. *)
Lemma duplicateRule_copies_disabled_witness :
  exists s' copy,
    duplicateRule quiet "r1" loaded = (Ok "rule-0", s') /\
    rules (state s') = rules (state loaded) ++ [copy] /\
    name (rule copy) = "fails (Kopya)" /\ enabled (rule copy) = false.
Proof.
  destruct (duplicateRule_copies_disabled quiet "r1" loaded eq_refl)
    as (s' & Hrun & Hrules).
  exists s'. eexists. split; [exact Hrun|]. split; [exact Hrules|].
  split; reflexivity.
Defined.

End HostInstances.

Section TestSuite.

Import ConditionEvaluator Samples.

(** The expectations of the evaluator's test suite: every [expect] of
    [conditionEvaluator.test.ts] holds of the model. *)
Example conditionEvaluator_test_suite :
  let run c payload :=
    fst (evaluateCondition c (createMockContext (VObj 7 payload)) start) in
  let all cs payload :=
    fst (evaluateConditions cs (createMockContext (VObj 7 payload)) start) in
  let cond f o v := {| field := f; operator := o; value_ := v |} in
  run (cond "payload.status" "eq" (VStr "active"))
      [("status", VStr "active")] = Ok true /\
  run (cond "payload.status" "eq" (VStr "active"))
      [("status", VStr "inactive")] = Ok false /\
  run (cond "payload.status" "neq" (VStr "active"))
      [("status", VStr "inactive")] = Ok true /\
  run (cond "payload.durationSec" "gt" (VNum 100%float))
      [("durationSec", VNum 150%float)] = Ok true /\
  run (cond "payload.durationSec" "gt" (VNum 100%float))
      [("durationSec", VNum 100%float)] = Ok false /\
  run (cond "payload.durationSec" "gte" (VNum 100%float))
      [("durationSec", VNum 100%float)] = Ok true /\
  run (cond "payload.count" "lt" (VNum 10%float))
      [("count", VNum 5%float)] = Ok true /\
  run (cond "payload.count" "lte" (VNum 10%float))
      [("count", VNum 10%float)] = Ok true /\
  run (cond "payload.name" "contains" (VStr "test"))
      [("name", VStr "my-test-activity")] = Ok true /\
  run (cond "payload.tags" "contains" (VStr "urgent"))
      [("tags", VArr 8 [VStr "work"; VStr "urgent"; VStr "coding"])]
    = Ok true /\
  run (cond "payload.name" "contains" (VStr "xyz"))
      [("name", VStr "my-activity")] = Ok false /\
  run (cond "payload.session.durationSec" "gte" (VNum 1800%float))
      [("session", VObj 8 [("id", VStr "123");
                           ("durationSec", VNum 2000%float)])] = Ok true /\
  run (cond "payload.nonexistent.deep.path" "eq" (VStr "test")) []
    = Ok false /\
  all [] [] = Ok true /\
  all [cond "payload.status" "eq" (VStr "active");
       cond "payload.count" "gte" (VNum 5%float)]
      [("status", VStr "active"); ("count", VNum 10%float)] = Ok true /\
  all [cond "payload.status" "eq" (VStr "active");
       cond "payload.count" "gte" (VNum 5%float)]
      [("status", VStr "active"); ("count", VNum 3%float)] = Ok false.
Proof. cbv zeta. repeat split. Qed.

End TestSuite.
